(** * CloudMart cost and tagging dashboard (App.py): a shallow embedding

    The program is one script over a pandas table.  The table is embedded as
    a header and a list of rows, text as lists of Unicode code points (the
    header repair removes U+FEFF, which is no byte), a cell as an optional
    value ([None] is pandas' NaN/None), and a cost as an exact rational: the
    rounding of binary floating point is not modelled.  Sums of costs are
    therefore the program's sums only where its arithmetic is exact, which
    [exact_costs] says of a column; the statements about sums carry it as
    a hypothesis.  The script itself is embedded in a small state, output
    and exception monad, so that the one table [df] every section reads and
    writes is threaded explicitly.  The page records what is displayed
    (tables, values, messages, figures, downloads); titles, headers and
    subheaders are not recorded. *)

From Stdlib Require Import List Bool Arith NArith ZArith QArith Lia.
From Stdlib Require Import String Ascii DecimalString Lqa.
Import ListNotations.

Set Implicit Arguments.

Close Scope Q_scope.
Open Scope nat_scope.

(** ** Text *)

Module Text.

Definition str := list N.

(** A literal of the source, as code points. *)
Definition u (s : string) : str :=
  List.map N_of_ascii (list_ascii_of_string s).

Fixpoint eqb (a b : str) : bool :=
  match a, b with
  | [], [] => true
  | x :: a', y :: b' => N.eqb x y && eqb a' b'
  | _, _ => false
  end.

(** [str.isspace] on one code point, which is also what [\s] matches in a
    pattern over text. *)
Definition is_space (c : N) : bool :=
  ((9 <=? c) && (c <=? 13) || (28 <=? c) && (c <=? 32)
   || (c =? 133) || (c =? 160) || (c =? 5760)
   || (8192 <=? c) && (c <=? 8202)
   || (c =? 8232) || (c =? 8233) || (c =? 8239) || (c =? 8287)
   || (c =? 12288))%N.

Fixpoint lstrip (s : str) : str :=
  match s with
  | c :: s' => if is_space c then lstrip s' else s
  | [] => []
  end.

Definition rstrip (s : str) : str := rev (lstrip (rev s)).

(** [s.strip()] *)
Definition strip (s : str) : str := rstrip (lstrip s).

Definition BOM : N := 65279%N.

(** [s.replace(BOM, empty)]: every U+FEFF is deleted. *)
Definition remove_bom (s : str) : str :=
  filter (fun c => negb (N.eqb c BOM)) s.

Definition comma : N := 44%N.

(** [s.split(d)] for a one-character delimiter: always at least one piece. *)
Fixpoint split (d : N) (s : str) : list str :=
  match s with
  | [] => [[]]
  | c :: s' =>
      if N.eqb c d then [] :: split d s'
      else match split d s' with
           | f :: fs => (c :: f) :: fs
           | [] => [[c]]
           end
  end.

(** The pattern [^\s*$]: the whole text is whitespace. *)
Definition blank (s : str) : bool := forallb is_space s.

End Text.

Import Text.

(** ** Cells and tables *)

Inductive value :=
| VStr (s : str)
| VNum (q : Q).

(** [None] is a missing cell. *)
Definition cell := option value.

(** [==] on two present values: text by code points, numbers by value. *)
Definition value_eqb (a b : value) : bool :=
  match a, b with
  | VStr s, VStr t => Text.eqb s t
  | VNum p, VNum q => Qeq_bool p q
  | _, _ => false
  end.

Definition isnull (c : cell) : bool :=
  match c with None => true | Some _ => false end.

Definition notnull (c : cell) : bool := negb (isnull c).

(** A cell compared with a literal, as in [df["Tagged"] == "No"]: a missing
    cell equals nothing. *)
Definition cell_is (c : cell) (v : value) : bool :=
  match c with
  | Some w => value_eqb w v
  | None => false
  end.

Record DataFrame := mkFrame {
  columns : list str;
  rows : list (list cell)
}.

(** [pd.DataFrame()] *)
Definition empty_frame : DataFrame := mkFrame [] [].

(** [df.empty]: some axis has length zero. *)
Definition empty (df : DataFrame) : bool :=
  match columns df, rows df with
  | [], _ => true
  | _, [] => true
  | _, _ => false
  end.

(** [name in df.columns] *)
Definition has_column (df : DataFrame) (name : str) : bool :=
  existsb (Text.eqb name) (columns df).

(** Position of a label in the header. *)
Fixpoint index_of (name : str) (cols : list str) : option nat :=
  match cols with
  | [] => None
  | c :: cs =>
      if Text.eqb c name then Some 0
      else option_map S (index_of name cs)
  end.

Definition cell_at (i : nat) (row : list cell) : cell := nth i row None.

(** The record's cell under a label ([None] also where the label is not in
    the header; users guard with [has_column]). *)
Definition get (df : DataFrame) (name : str) (row : list cell) : cell :=
  match index_of name (columns df) with
  | Some i => cell_at i row
  | None => None
  end.

(** [df[name]] as the column's cells, top to bottom. *)
Definition column (df : DataFrame) (name : str) : list cell :=
  List.map (get df name) (rows df).

(** [df.shape[0]] *)
Definition nrows (df : DataFrame) : nat := List.length (rows df).

(** [df[mask]] for a Boolean series: a new table with the records whose
    mask entry is true; the source is untouched. *)
Definition select (df : DataFrame) (mask : list bool) : DataFrame :=
  mkFrame (columns df)
          (List.map fst (filter snd (combine (rows df) mask))).

(** The table invariant of the data model: labels are distinct and every
    record has one cell per label.  Access by one label ([get], [column])
    is modelled for distinct labels. *)
Definition distinctb (cols : list str) : bool :=
  (fix go (l : list str) : bool :=
     match l with
     | [] => true
     | c :: l' => negb (existsb (Text.eqb c) l') && go l'
     end) cols.

(** Every record has one cell per label. *)
Definition rectangular (df : DataFrame) : bool :=
  forallb (fun r => Nat.eqb (List.length r) (List.length (columns df)))
          (rows df).

(** ** Column helpers *)

(** [s.dropna()] *)
Definition dropna (l : list cell) : list cell := filter notnull l.

(** Equality as [isin] and [unique] see it: two missing cells agree. *)
Definition cell_eqb (a b : cell) : bool :=
  match a, b with
  | Some v, Some w => value_eqb v w
  | None, None => true
  | _, _ => false
  end.

(** [s.unique()]: first occurrences, in order of appearance. *)
Fixpoint unique (l : list cell) : list cell :=
  match l with
  | [] => []
  | c :: l' => c :: filter (fun d => negb (cell_eqb d c)) (unique l')
  end.

(** [s.isin(values)] on one cell. *)
Definition isin (values : list cell) (c : cell) : bool :=
  existsb (cell_eqb c) values.

(** A cell of a numeric column as a number; [sum] skips missing cells. *)
Definition number (c : cell) : Q :=
  match c with
  | Some (VNum q) => q
  | _ => 0%Q
  end.

Definition is_numeric (c : cell) : bool :=
  match c with
  | Some (VStr _) => false
  | _ => true
  end.

(** [s.sum()], as an exact sum.  The program adds 64-bit floats or 64-bit
    integers; its sum is this one where [exact_costs] holds of the
    column. *)
Definition sum (l : list cell) : Q :=
  fold_right (fun c acc => Qplus (number c) acc) 0%Q l.

(** A cell that holds a whole number, or nothing. *)
Definition whole_number (c : cell) : bool :=
  match c with
  | Some (VNum q) => Pos.eqb (Qden (Qred q)) 1
  | Some (VStr _) => false
  | None => true
  end.

Definition magnitude (c : cell) : Z :=
  match c with
  | Some (VNum q) => Z.abs (Qnum (Qred q))
  | _ => 0%Z
  end.

(** Costs on which the program's arithmetic is exact: whole numbers whose
    magnitudes add up to less than 2^53.  Every sum of such numbers, of all
    of them or of some, in any order and with or without compensation, is
    a whole number below 2^53 in magnitude at every step, so no 64-bit
    float addition rounds and no 64-bit integer addition wraps. *)
Definition exact_costs (l : list cell) : bool :=
  forallb whole_number l
  && Z.ltb (fold_right (fun c acc => Z.add (magnitude c) acc) 0%Z l)
           (2 ^ 53)%Z.

(** A whole number below 2^53 in magnitude: a value that a 64-bit float
    and a 64-bit integer both hold exactly. *)
Definition exact_value (q : Q) : bool :=
  Pos.eqb (Qden (Qred q)) 1 && Z.ltb (Z.abs (Qnum (Qred q))) (2 ^ 53)%Z.

(** [df.head(n)] *)
Definition head (n : nat) (df : DataFrame) : DataFrame :=
  mkFrame (columns df) (firstn n (rows df)).

(** The cells of a record that stand under a label.  With distinct labels
    there is at most one; a repeated label yields every one of them. *)
Fixpoint cells_under (name : str) (cols : list str) (row : list cell)
  : list cell :=
  match cols with
  | [] => []
  | c :: cs =>
      let rest := cells_under name cs (tl row) in
      if Text.eqb c name then hd None row :: rest else rest
  end.

(** [df[names]] for a list of labels that all exist (a label that does not
    exist raises [KeyError]; callers check first). *)
Definition take_columns (df : DataFrame) (names : list str) : DataFrame :=
  mkFrame (flat_map (fun n => filter (fun c => Text.eqb c n) (columns df))
                    names)
          (List.map (fun r => flat_map (fun n => cells_under n (columns df) r)
                                       names)
                    (rows df)).

Fixpoint replace_nth (i : nat) (c : cell) (row : list cell) : list cell :=
  match i, row with
  | 0, _ :: row' => c :: row'
  | S i', x :: row' => x :: replace_nth i' c row'
  | _, [] => []
  end.

(** [df[name] = values]: the column is overwritten where the label exists
    and appended as the last column where it does not.  This changes the
    table it is applied to. *)
Definition set_column (df : DataFrame) (name : str) (values : list cell)
  : DataFrame :=
  match index_of name (columns df) with
  | Some i =>
      mkFrame (columns df)
              (List.map (fun rc => replace_nth i (snd rc) (fst rc))
                        (combine (rows df) values))
  | None =>
      mkFrame (columns df ++ [name])
              (List.map (fun rc => fst rc ++ [snd rc])
                        (combine (rows df) values))
  end.

(** [df.fillna('')]: a new table in which every missing cell holds the
    empty text. *)
Definition fillna_empty (df : DataFrame) : DataFrame :=
  mkFrame (columns df)
          (List.map (List.map (fun c => match c with
                                        | None => Some (VStr [])
                                        | Some v => Some v
                                        end))
                    (rows df)).

(** [df.isnull().sum()] *)
Definition missing_per_column (df : DataFrame) : list (str * nat) :=
  List.map (fun n => (n, List.length (filter isnull (column df n))))
           (columns df).

(** ** Ordering of group keys *)

Fixpoint str_leb (a b : str) : bool :=
  match a, b with
  | [], _ => true
  | _ :: _, [] => false
  | x :: a', y :: b' =>
      if N.ltb x y then true
      else if N.ltb y x then false
      else str_leb a' b'
  end.

(** Text sorts by code point; a number is placed before any text. *)
Definition value_leb (a b : value) : bool :=
  match a, b with
  | VStr s, VStr t => str_leb s t
  | VNum p, VNum q => Qle_bool p q
  | VNum _, VStr _ => true
  | VStr _, VNum _ => false
  end.

Definition cell_leb (a b : cell) : bool :=
  match a, b with
  | Some v, Some w => value_leb v w
  | None, _ => true
  | Some _, None => false
  end.

Fixpoint insert_sorted (c : cell) (l : list cell) : list cell :=
  match l with
  | [] => [c]
  | d :: l' => if cell_leb c d then c :: l else d :: insert_sorted c l'
  end.

Definition sort_keys (l : list cell) : list cell :=
  fold_right insert_sorted [] l.

(** [df.groupby(key)[val].sum()]: one entry per value of the key column,
    in sorted key order.  Records whose key is missing belong to no group
    (the library's default, [dropna=True]). *)
Definition groupby_sum (df : DataFrame) (key val : str)
  : list (cell * Q) :=
  List.map
    (fun k =>
       (k, sum (column
                  (select df (List.map (fun c => cell_eqb c k) (column df key)))
                  val)))
    (sort_keys (unique (dropna (column df key)))).

(** The [.sum()] of such a series: the total over its values. *)
Definition total (s : list (cell * Q)) : Q :=
  fold_right (fun kv acc => Qplus (snd kv) acc) 0%Q s.

(** ** Export *)

Definition quote : N := 34%N.
Definition LF : N := 10%N.
Definition CR : N := 13%N.

(** Characters that make the writer quote a field: the delimiter, the
    quote and the characters of the line end, which is a line feed.  A
    carriage return is none of them: the library's writer puts it into the
    text as it is (until Python 3.13, which quotes it). *)
Definition special (c : N) : bool :=
  N.eqb c comma || N.eqb c quote || N.eqb c LF.

Definition quoted (s : str) : str :=
  quote :: flat_map (fun c => if N.eqb c quote then [quote; quote] else [c]) s
        ++ [quote].

Definition write_field (s : str) : str :=
  if existsb special s then quoted s else s.

Fixpoint join (sep : N) (l : list str) : str :=
  match l with
  | [] => []
  | [s] => s
  | s :: l' => s ++ sep :: join sep l'
  end.

(** One record of output.  A record that is a single empty field is written
    as a pair of quotes, so that no blank line is produced. *)
Definition write_row (fields : list str) : str :=
  match fields with
  | [[]] => [quote; quote; LF]
  | _ => join comma (List.map write_field fields) ++ [LF]
  end.

(** ** The script: state, output and exceptions *)

(** The exceptions the script can meet.  [NotNumeric] is the [ValueError]
    of [pd.to_numeric], [DuplicateLabels] the [ValueError] with which
    [st.dataframe] refuses a table whose column labels are not distinct. *)
Inductive exn :=
| ReadError
| AttributeError
| LengthMismatch (expected got : nat)
| KeyError (label : str)
| TypeError
| NotNumeric (text : str)
| DuplicateLabels.

(** What a display call is handed.  [Other] stands for a display whose
    content is left out of the model. *)
Inductive shown :=
| Labels (l : list str)
| Frame (f : DataFrame)
| Counts (l : list (str * nat))
| Sums (l : list (cell * Q))
| Percent (q : Q)
| Other (what : string).

(** The display calls that are recorded.  [st.title], [st.header] and
    [st.subheader] show fixed text and are not among them: a statement about
    the page speaks of the events below only. *)
Inductive event :=
| st_success
| st_error (e : exn)
| st_warning (what : string)
| st_info (what : string)
| st_write (x : shown)
| st_dataframe (f : DataFrame)
| st_download_button (file_name : string) (data : str)
| st_plotly_chart (what : string) (data : DataFrame).

(** The process-wide state: the current table [df] and what has been put on
    the page so far. *)
Record world := mkWorld {
  df : DataFrame;
  page : list event
}.

Definition script (A : Type) : Type := world -> (exn + A) * world.

Definition ret {A} (a : A) : script A := fun w => (inr a, w).

Definition bind {A B} (c : script A) (k : A -> script B) : script B :=
  fun w =>
    match c w with
    | (inr a, w') => k a w'
    | (inl e, w') => (inl e, w')
    end.

Definition raise {A} (e : exn) : script A := fun w => (inl e, w).

(** [try: body / except Exception as e: handler(e)] *)
Definition try_except {A} (body : script A) (handler : exn -> script A)
  : script A :=
  fun w =>
    match body w with
    | (inr a, w') => (inr a, w')
    | (inl e, w') => handler e w'
    end.

Definition read_df : script DataFrame := fun w => (inr (df w), w).

Definition assign_df (d : DataFrame) : script unit :=
  fun w => (inr tt, mkWorld d (page w)).

Definition st (e : event) : script unit :=
  fun w => (inr tt, mkWorld (df w) (page w ++ [e])).

Definition lift {A} (r : exn + A) : script A :=
  match r with
  | inr a => ret a
  | inl e => raise e
  end.

Definition when (b : bool) (c : script unit) : script unit :=
  if b then c else ret tt.

Declare Scope script_scope.
Delimit Scope script_scope with script.
Notation "x <- c ;; k" := (bind c (fun x => k))
  (at level 61, c at next level, right associativity) : script_scope.
Notation "c ;; k" := (bind c (fun _ => k))
  (at level 61, right associativity) : script_scope.
Open Scope script_scope.

(** What [pd.read_csv(csv_path)] finds: nothing it can read, a first column
    that was inferred as numbers (on which [.str] raises), or one column of
    text lines under a header line.  A missing line is [None]. *)
Inductive csv_file :=
| Unreadable
| NonText (header_string : str)
| SingleColumn (header_string : str) (lines : list (option str)).

Definition MonthlyCostUSD : str := u "MonthlyCostUSD".
Definition Tagged : str := u "Tagged".
Definition No : value := VStr (u "No").
Definition CompletenessScore : str := u "CompletenessScore".
Definition ResourceID : str := u "ResourceID".
Definition Service : str := u "Service".
Definition Region : str := u "Region".
Definition Department : str := u "Department".
Definition Project : str := u "Project".
Definition Environment : str := u "Environment".

(** [[col.strip().replace(BOM, empty) for col in header_string.split(',')]] *)
Definition cleaned_header_list (header_string : str) : list str :=
  List.map (fun col => remove_bom (strip col)) (split comma header_string).

(** [series.str.split(',', expand=True)]: as many columns as the longest
    record has fields; shorter records are padded with missing cells and a
    missing line is missing in every column. *)
Definition split_expand (lines : list (option str)) : nat * list (list cell) :=
  let pieces := List.map (option_map (split comma)) lines in
  let width :=
    fold_right Nat.max 0
      (List.map (fun p => match p with
                          | Some l => List.length l
                          | None => 1
                          end) pieces) in
  (width,
   List.map (fun p =>
               match p with
               | Some l => List.map (fun s => Some (VStr s)) l
                           ++ repeat None (width - List.length l)
               | None => repeat None width
               end) pieces).

(** [df.replace(r'^\s*$', nan, regex=True)] on one cell. *)
Definition blank_to_nan (c : cell) : cell :=
  match c with
  | Some (VStr s) => if blank s then None else c
  | _ => c
  end.

Definition Owner : str := u "Owner".
Definition CostCenter : str := u "CostCenter".
Definition CreatedBy : str := u "CreatedBy".

Definition nonempty {A} (l : list A) : bool :=
  match l with [] => false | _ => true end.

(** The six tag fields of line 106. *)
Definition tag_names : list str :=
  [Department; Project; Environment; Owner; CostCenter; CreatedBy].

(** [[col for col in [...] if col in df.columns]] *)
Definition tag_fields (d : DataFrame) : list str :=
  filter (has_column d) tag_names.

Definition count_true (l : list bool) : nat := List.length (filter id l).

(** [df[tag_fields].notnull().sum(axis=1)], one count per record. *)
Definition completeness_score (d : DataFrame) (fields : list str) : list nat :=
  List.map (fun r => count_true (List.map notnull r))
           (rows (take_columns d fields)).

Definition score_cell (n : nat) : cell := Some (VNum (inject_Z (Z.of_nat n))).

(** [df[tag_fields].isnull().any(axis=1)] *)
Definition incomplete_mask (d : DataFrame) (fields : list str) : list bool :=
  List.map (fun r => existsb isnull r) (rows (take_columns d fields)).

(** [df[incomplete_mask].fillna('')] *)
Definition incomplete_df (d : DataFrame) (fields : list str) : DataFrame :=
  fillna_empty (select d (incomplete_mask d fields)).

(** [(df[df["Tagged"] == "No"].shape[0] / df.shape[0]) * 100] *)
Definition pct_untagged (d : DataFrame) : Q :=
  (inject_Z (Z.of_nat (nrows (select d (List.map (fun c => cell_is c No)
                                                 (column d Tagged)))))
   / inject_Z (Z.of_nat (nrows d)) * 100)%Q.

(** [filtered.dropna(subset=[name])] *)
Definition dropna_subset (d : DataFrame) (name : str) : DataFrame :=
  select d (List.map notnull (column d name)).

Section App.

(** The library's reader of one number: its value, or [None] where
    [pd.to_numeric] raises. *)
Variable to_numeric : str -> option Q.

(** How the writer prints a number. *)
Variable number_text : Q -> str.

(** The user: which of the offered options are ticked in the selector with
    a given label, and what the editable grid hands back. *)
Variable ticked : string -> cell -> bool.
Variable data_editor : DataFrame -> DataFrame.

(** [st.multiselect(label, options)]: the ticked ones among the options. *)
Definition multiselect (label : string) (options : list cell) : list cell :=
  filter (ticked label) options.

Definition cell_text (c : cell) : str :=
  match c with
  | None => []
  | Some (VStr s) => s
  | Some (VNum q) => number_text q
  end.

(** [df.to_csv(index=False)]: the header line, then one line per record;
    a missing cell is an empty field. *)
Definition to_csv (d : DataFrame) : str :=
  write_row (columns d)
  ++ flat_map (fun r => write_row (List.map cell_text r)) (rows d).

(** [pd.to_numeric(series)]: the first text that is no number raises. *)
Fixpoint to_numeric_cells (l : list cell) : exn + list cell :=
  match l with
  | [] => inr []
  | c :: l' =>
      let converted :=
        match c with
        | Some (VStr s) =>
            match to_numeric s with
            | Some q => inr (Some (VNum q))
            | None => inl (NotNumeric s)
            end
        | _ => inr c
        end in
      match converted with
      | inl e => inl e
      | inr c' =>
          match to_numeric_cells l' with
          | inl e => inl e
          | inr r => inr (c' :: r)
          end
      end
  end.

(** Lines 19-32: the header and the records are split on the comma, the
    labels cleaned, and blank fields made missing. *)
Definition repair (file : csv_file) : exn + DataFrame :=
  match file with
  | Unreadable => inl ReadError
  | NonText _ => inl AttributeError
  | SingleColumn header_string lines =>
      let cleaned := cleaned_header_list header_string in
      let (width, cells) := split_expand lines in
      if negb (Nat.eqb width (List.length cleaned))
      then inl (LengthMismatch width (List.length cleaned))
      else inr (mkFrame cleaned (List.map (List.map blank_to_nan) cells))
  end.

(** Line 35: [df['MonthlyCostUSD'] = pd.to_numeric(df['MonthlyCostUSD'])].
    Without the column the lookup raises; under a repeated label the lookup
    is a table, which [pd.to_numeric] refuses. *)
Definition coerce_cost (d : DataFrame) : exn + DataFrame :=
  match List.length (filter (Text.eqb MonthlyCostUSD) (columns d)) with
  | 0 => inl (KeyError MonthlyCostUSD)
  | 1 =>
      match to_numeric_cells (column d MonthlyCostUSD) with
      | inl e => inl e
      | inr cost => inr (set_column d MonthlyCostUSD cost)
      end
  | _ => inl TypeError
  end.

(** Lines 18-42.  [df] is bound here once, when the block has succeeded;
    the handler rebinds it to the empty table. *)
Definition load (file : csv_file) : script unit :=
  try_except
    (d <- lift (repair file) ;;
     d <- lift (coerce_cost d) ;;
     assign_df d ;;
     st st_success ;;
     st (st_write (Labels (columns d))))
    (fun e => st (st_error e) ;; assign_df empty_frame).

(** Task set 1, lines 51-70.  The table display of line 53 refuses a
    table with a repeated label: it raises, and the script stops there, so
    that everything after line 53 runs on distinct labels only. *)
Definition task1 : script unit :=
  d <- read_df ;;
  when (negb (empty d))
    ((if distinctb (columns d)
      then st (st_dataframe (head 5 d))
      else raise DuplicateLabels) ;;
     st (st_write (Counts (missing_per_column d))) ;;
     st (st_write (Other "1.3 most missing")) ;;
     (if has_column d Tagged
      then st (st_write (Other "1.4 value_counts"))
      else st (st_warning "Column 'Tagged' not found")) ;;
     when (has_column d Tagged
           && existsb (fun c => cell_is c No) (column d Tagged))
       (st (st_write (Percent (pct_untagged d))))).

(** Task set 2, lines 77-99.  The sums, and with them the guard of line
    85, are exact sums: see [exact_costs]. *)
Definition task2 : script unit :=
  d <- read_df ;;
  when (negb (empty d) && forallb (has_column d) [Tagged; MonthlyCostUSD])
    (st (st_write (Sums (groupby_sum d Tagged MonthlyCostUSD))) ;;
     let total_cost := sum (column d MonthlyCostUSD) in
     let untagged_cost :=
       sum (column (select d (List.map (fun c => cell_is c No)
                                       (column d Tagged)))
                   MonthlyCostUSD) in
     when (negb (Qle_bool total_cost 0))
       (st (st_write (Percent (untagged_cost / total_cost * 100)%Q)))) ;;
  when (negb (empty d)
        && forallb (has_column d) [Department; MonthlyCostUSD; Tagged])
    (st (st_write (Other "2.3 untagged cost by department"))) ;;
  when (negb (empty d) && forallb (has_column d) [Project; MonthlyCostUSD])
    (st (st_write (Other "2.4 cost by project"))) ;;
  when (negb (empty d)
        && forallb (has_column d) [Environment; MonthlyCostUSD; Tagged])
    (st (st_write (Other "2.5 cost by environment and tag"))).

(** Task set 3, lines 106-140; the result is [untagged_df]. *)
Definition task3 : script DataFrame :=
  d <- read_df ;;
  let tag_fields := tag_fields d in
  if negb (empty d) && nonempty tag_fields then
    assign_df (set_column d CompletenessScore
                 (List.map score_cell (completeness_score d tag_fields))) ;;
    d <- read_df ;;
    (if has_column d ResourceID
     then st (st_write
                (Frame (head 5 (take_columns d [ResourceID;
                                                CompletenessScore]))))
     else raise (KeyError ResourceID)) ;;
    st (st_write (Other "3.2 lowest scores")) ;;
    st (st_write (Other "3.3 most missing tag fields")) ;;
    let untagged_df := incomplete_df d tag_fields in
    st (st_dataframe untagged_df) ;;
    when (negb (empty untagged_df))
      (st (st_download_button "incomplete_resources.csv"
             (to_csv untagged_df))) ;;
    ret untagged_df
  else
    st (st_warning "No tag columns found to calculate CompletenessScore.") ;;
    ret empty_frame.

(** What one selector hands back, as in
    [st.multiselect(label, df[col].dropna().unique())]. *)
Definition col_filter (label : string) (col : str) (d : DataFrame)
  : list cell :=
  multiselect label (unique (dropna (column d col))).

(** One selector of task set 4: offered only if the column exists, applied
    only if something is ticked. *)
Definition filter_by (label : string) (col : str) (d filtered : DataFrame)
  : DataFrame :=
  if has_column d col then
    if nonempty (col_filter label col d)
    then select filtered
                (List.map (isin (col_filter label col d)) (column filtered col))
    else filtered
  else filtered.

(** Lines 148-161. *)
Definition filtered_table (d : DataFrame) : DataFrame :=
  let filtered := d in
  let filtered := filter_by "Filter by Service" Service d filtered in
  let filtered := filter_by "Filter by Region" Region d filtered in
  let filtered := filter_by "Filter by Department" Department d filtered in
  filtered.

(** Task set 4, lines 148-193.  A figure is recorded with the table it is
    drawn from; its own grouping is not modelled. *)
Definition task4 : script unit :=
  d <- read_df ;;
  let filtered := filtered_table d in
  when (negb (empty filtered))
    (when (has_column d Tagged)
       (st (st_plotly_chart "4.1 Tag Compliance"
              (dropna_subset filtered Tagged))) ;;
     when (forallb (has_column d) [Department; MonthlyCostUSD; Tagged])
       (st (st_plotly_chart "4.2 cost by department and tag" filtered)) ;;
     when (forallb (has_column d) [Service; MonthlyCostUSD])
       (st (st_plotly_chart "4.3 cost by service" filtered)) ;;
     when (forallb (has_column d) [Environment; MonthlyCostUSD])
       (st (st_plotly_chart "4.4 cost by environment" filtered))).

(** Task set 5, lines 201-207. *)
Definition task5 : script unit :=
  d <- read_df ;;
  if negb (empty d) then
    let edited_table := data_editor d in
    st (st_download_button "updated_data.csv" (to_csv edited_table))
  else st (st_info "Data is empty.").

(** Everything after the load. *)
Definition downstream : script unit :=
  task1 ;; task2 ;; _ <- task3 ;; task4 ;; task5.

(** The whole script. *)
Definition main (file : csv_file) : script unit :=
  load file ;; downstream.

End App.

(** The three selectors of task set 4. *)
Definition selectors : list (string * str) :=
  [("Filter by Service"%string, Service);
   ("Filter by Region"%string, Region);
   ("Filter by Department"%string, Department)].

(** The state the script starts in: no table, an empty page. *)
Definition start : world := mkWorld empty_frame [].

(** ** Concrete parameters and tables for running the script *)

Definition text (s : string) : cell := Some (VStr (u s)).
Definition num (z : Z) : cell := Some (VNum (inject_Z z)).

Definition digit (c : N) : option Z :=
  if ((48 <=? c) && (c <=? 57))%N then Some (Z.of_N (c - 48)) else None.

Fixpoint digits (acc : Z) (s : str) : option Z :=
  match s with
  | [] => Some acc
  | c :: s' =>
      match digit c with
      | Some k => digits (10 * acc + k)%Z s'
      | None => None
      end
  end.

(** A reader of plain decimals such as [12] and [12.50]; anything else is
    refused.  It stands in for the library's reader when the script is run
    on an example. *)
Definition decimal (s : str) : option Q :=
  match split 46%N s with
  | [i] =>
      match i with
      | [] => None
      | _ => option_map inject_Z (digits 0 i)
      end
  | [i; f] =>
      match i, f, digits 0 (i ++ f) with
      | _ :: _, _ :: _, Some n =>
          Some (Qmake n (Pos.pow 10 (Pos.of_nat (List.length f))))
      | _, _, _ => None
      end
  | _ => None
  end.

(** A printer for the examples: the numerator, and the denominator after a
    slash where it is not one. *)
Definition fraction_text (q : Q) : str :=
  let n := u (DecimalString.NilZero.string_of_int (Z.to_int (Qnum q))) in
  match Qden q with
  | xH => n
  | d => n ++ 47%N :: u (DecimalString.NilZero.string_of_uint (Pos.to_uint d))
  end.

(** A user who ticks nothing and edits nothing, and one who ticks all. *)
Definition nothing_ticked : string -> cell -> bool := fun _ _ => false.
Definition all_ticked : string -> cell -> bool := fun _ _ => true.
Definition no_edit : DataFrame -> DataFrame := fun d => d.

(** One record is tagged, the tag of the other is missing. *)
Definition half_tagged : DataFrame :=
  mkFrame [ResourceID; Tagged; MonthlyCostUSD]
          [[text "r1"; text "Yes"; num 10];
           [text "r2"; None; num 5]].

(** One record without a department. *)
Definition one_incomplete : DataFrame :=
  mkFrame [ResourceID; Department; MonthlyCostUSD]
          [[text "r1"; None; num 5]].

(** The header [A,B,C] over the record [1,,3]. *)
Definition abc_file : csv_file :=
  SingleColumn (u "A,B,C") [Some (u "1,,3")].

(** The same record under a header that names the cost column. *)
Definition cost_file : csv_file :=
  SingleColumn (u "A,MonthlyCostUSD,C") [Some (u "1,,3")].

(** A cost that is no number. *)
Definition bad_cost_file : csv_file :=
  SingleColumn (u "ResourceID,MonthlyCostUSD")
               [Some (u "r1,12.50"); Some (u "r2,abc")].

(** Ten records of which three are untagged. *)
Definition ten_records : DataFrame :=
  mkFrame [ResourceID; Tagged]
          [[text "r1"; text "No"]; [text "r2"; text "Yes"];
           [text "r3"; text "Yes"]; [text "r4"; text "No"];
           [text "r5"; None]; [text "r6"; text "Yes"];
           [text "r7"; text "Yes"]; [text "r8"; text "No"];
           [text "r9"; text "Yes"]; [text "r10"; text "Yes"]].

(** All six tag fields, one record that has them all and one that has
    none. *)
Definition six_fields : DataFrame :=
  mkFrame [ResourceID; Department; Project; Environment; Owner; CostCenter;
           CreatedBy]
          [[text "r1"; text "Eng"; text "Web"; text "Prod"; text "ann";
            text "cc1"; text "bot"];
           [text "r2"; None; None; None; None; None; None]].

(** Two services, one record without a service. *)
Definition three_services : DataFrame :=
  mkFrame [ResourceID; Service; Region]
          [[text "r1"; text "EC2"; text "us"];
           [text "r2"; None; text "eu"];
           [text "r3"; text "S3"; text "us"]].

(** A user who ticks the option [EC2] of the service selector only. *)
Definition ec2_ticked : string -> cell -> bool :=
  fun label c =>
    String.eqb label "Filter by Service" && cell_eqb c (text "EC2").

(** ** Properties of scripts *)

(** The script leaves the table as it found it. *)
Definition keeps_table {A} (c : script A) : Prop :=
  forall w, df (snd (c w)) = df w.

(** The percentages among the events of a page. *)
Definition percents (p : list event) : list Q :=
  flat_map (fun e => match e with
                     | st_write (Percent q) => [q]
                     | _ => []
                     end) p.

(** ** Re-ingestion of an export *)

(** The reader through which an export is read back (section 4.5 of the
    specification).  The repository has no such reader, so it is written
    from the specification's words. *)
Module Reader.

Inductive state :=
| Plain      (* in a field that did not open with a quote *)
| Quoted     (* inside quotes *)
| QuoteSeen  (* after a quote inside quotes: the end, or half of a pair *)
| CRSeen.    (* after a carriage return that ended a field *)

(** Modelled from the spec: the conformant reader of delimited text, which
    is not part of the repository.  It is the usual reader of
    comma-separated records: a field is plain or enclosed in quotes, a quote
    inside quotes is written twice, a record ends at a line feed, with or
    without a carriage return before it, and a blank line is no record.
    [field] holds the characters of the current field, last first, and
    [record] the fields of the current record, last first, as [records]
    holds the finished records. *)
Fixpoint read (st : state) (field : str) (record : list str)
         (records : list (list str)) (input : str)
  : option (list (list str)) :=
  match input with
  | [] =>
      match st with
      | Plain =>
          match field, record with
          | [], [] => Some (rev records)
          | _, _ => Some (rev (rev (rev field :: record) :: records))
          end
      | QuoteSeen => Some (rev (rev (rev field :: record) :: records))
      | Quoted => None
      | CRSeen => None
      end
  | c :: rest =>
      match st with
      | Plain =>
          if N.eqb c quote then
            match field with
            | [] => read Quoted [] record records rest
            | _ => None
            end
          else if N.eqb c comma then
            read Plain [] (rev field :: record) records rest
          else if N.eqb c LF then
            match field, record with
            | [], [] => read Plain [] [] records rest
            | _, _ => read Plain [] [] (rev (rev field :: record) :: records)
                           rest
            end
          else if N.eqb c CR then
            read CRSeen [] (rev field :: record) records rest
          else read Plain (c :: field) record records rest
      | Quoted =>
          if N.eqb c quote then read QuoteSeen field record records rest
          else read Quoted (c :: field) record records rest
      | QuoteSeen =>
          if N.eqb c quote then read Quoted (c :: field) record records rest
          else if N.eqb c comma then
            read Plain [] (rev field :: record) records rest
          else if N.eqb c LF then
            read Plain [] [] (rev (rev field :: record) :: records) rest
          else if N.eqb c CR then
            read CRSeen [] (rev field :: record) records rest
          else None
      | CRSeen =>
          if N.eqb c LF then read Plain [] [] (rev record :: records) rest
          else None
      end
  end.

(** Modelled from the spec: re-ingestion of an export, which is not part
    of the repository.  The first record is the header; all cells come back
    as text. *)
Definition read_table (input : str) : option (list str * list (list str)) :=
  match read Plain [] [] [] input with
  | Some (header :: records) => Some (header, records)
  | _ => None
  end.

End Reader.

(** A table with three awkward cells: a comma, a quote and a line break. *)
Definition awkward : DataFrame :=
  mkFrame [ResourceID; Owner; MonthlyCostUSD]
          [[text "r1"; text "Lee, Ann"; num 12];
           [text "r2"; Some (VStr (u "the " ++ [quote] ++ u "boss" ++ [quote]));
            None];
           [Some (VStr (u "r" ++ [LF] ++ u "3")); None; num 7]].

(** A single column whose only cell is missing. *)
Definition lonely : DataFrame := mkFrame [Owner] [[None]].

(** ** The values of task set 2 by name *)

(** [df[df["Tagged"] == "No"]] *)
Definition untagged (d : DataFrame) : DataFrame :=
  select d (List.map (fun c => cell_is c No) (column d Tagged)).

(** Line 82. *)
Definition total_cost (d : DataFrame) : Q := sum (column d MonthlyCostUSD).

(** Line 83. *)
Definition untagged_cost (d : DataFrame) : Q :=
  sum (column (untagged d) MonthlyCostUSD).

(** Line 90, before the sums are sorted for display. *)
Definition dept_untagged (d : DataFrame) : list (cell * Q) :=
  groupby_sum (untagged d) Department MonthlyCostUSD.

(** A cost that is not negative; a missing cost counts as none. *)
Definition nonnegative (c : cell) : bool := Qle_bool 0 (number c).

(** Three records, one untagged, one without a department. *)
Definition three_costs : DataFrame :=
  mkFrame [ResourceID; Department; Tagged; MonthlyCostUSD]
          [[text "r1"; text "Eng"; text "No"; num 30];
           [text "r2"; None; text "No"; num 10];
           [text "r3"; text "Ops"; text "Yes"; num 60]].

(** The script ends without an exception and leaves the table as it found
    it. *)
Definition runs_and_keeps {A} (c : script A) : Prop :=
  forall w, exists a p, c w = (inr a, mkWorld (df w) p).

(** A table with a tag field and no [ResourceID]. *)
Definition no_resource_id : DataFrame :=
  mkFrame [Department; MonthlyCostUSD] [[text "Eng"; num 5]].

(** The table after line 110: the scores stored under their label. *)
Definition scored (d : DataFrame) : DataFrame :=
  set_column d CompletenessScore
             (List.map score_cell (completeness_score d (tag_fields d))).

(** ** Grouping by two columns *)

(** The two key cells of a record. *)
Definition key2 : Type := (cell * cell)%type.

Definition key2_eqb (a b : key2) : bool :=
  cell_eqb (fst a) (fst b) && cell_eqb (snd a) (snd b).

(** A record is grouped only if neither key is missing. *)
Definition key2_present (a : key2) : bool :=
  notnull (fst a) && notnull (snd a).

Fixpoint unique2 (l : list key2) : list key2 :=
  match l with
  | [] => []
  | c :: l' => c :: filter (fun d => negb (key2_eqb d c)) (unique2 l')
  end.

(** By the first key, then by the second. *)
Definition key2_leb (a b : key2) : bool :=
  if cell_eqb (fst a) (fst b) then cell_leb (snd a) (snd b)
  else cell_leb (fst a) (fst b).

Fixpoint insert_sorted2 (c : key2) (l : list key2) : list key2 :=
  match l with
  | [] => [c]
  | d :: l' => if key2_leb c d then c :: l else d :: insert_sorted2 c l'
  end.

Definition sort_keys2 (l : list key2) : list key2 :=
  fold_right insert_sorted2 [] l.

(** [df.groupby([first, second])[val].sum()]: one entry per pair of key
    values that occurs with both keys present, in sorted order. *)
Definition groupby2_sum (d : DataFrame) (first second val : str)
  : list (key2 * Q) :=
  let keys := combine (column d first) (column d second) in
  List.map
    (fun k =>
       (k, sum (column (select d (List.map (fun c => key2_eqb c k) keys))
                       val)))
    (sort_keys2 (unique2 (filter key2_present keys))).

Definition total2 (s : list (key2 * Q)) : Q :=
  fold_right (fun kv acc => Qplus (snd kv) acc) 0%Q s.

(** Line 99. *)
Definition cost_by_environment_and_tag (d : DataFrame) : list (key2 * Q) :=
  groupby2_sum d Environment Tagged MonthlyCostUSD.

(** Four records over two environments; one has no tag, one no
    environment. *)
Definition four_costs : DataFrame :=
  mkFrame [Environment; Tagged; MonthlyCostUSD]
          [[text "Prod"; text "Yes"; num 40];
           [text "Prod"; None; num 8];
           [None; text "No"; num 2];
           [text "Dev"; text "No"; num 50]].

(** ** Observers and tables for the further properties *)

(** The downloads and figures among the events of a page. *)
Definition offers (p : list event) : list event :=
  filter (fun e => match e with
                   | st_download_button _ _ => true
                   | st_plotly_chart _ _ => true
                   | _ => false
                   end) p.

(** The script puts neither a download nor a figure on the page. *)
Definition offers_nothing {A} (c : script A) : Prop :=
  forall w, offers (page (snd (c w))) = offers (page w).

Definition is_number (c : cell) : bool :=
  match c with
  | Some (VNum _) => true
  | _ => false
  end.


(** * Properties *)

Unset Implicit Arguments.

(** ** Text and cell equality *)

Lemma text_eqb_refl (a : str) : Text.eqb a a = true.
Proof.
  induction a as [|x a IH]; simpl; [reflexivity|].
  now rewrite N.eqb_refl, IH.
Qed.

Lemma text_eqb_eq (a b : str) : Text.eqb a b = true <-> a = b.
Proof.
  split.
  - revert b; induction a as [|x a IH]; intros [|y b]; simpl;
      try discriminate; [reflexivity|].
    intros H. apply andb_true_iff in H as [Hx Hr].
    apply N.eqb_eq in Hx. f_equal; auto.
  - intros ->. apply text_eqb_refl.
Qed.

Lemma text_eqb_neq (a b : str) : Text.eqb a b = false <-> a <> b.
Proof.
  rewrite <- text_eqb_eq. destruct (Text.eqb a b); split; congruence.
Qed.

Lemma text_eqb_sym (a b : str) : Text.eqb a b = Text.eqb b a.
Proof.
  destruct (Text.eqb a b) eqn:E.
  - apply text_eqb_eq in E. subst. now rewrite text_eqb_refl.
  - destruct (Text.eqb b a) eqn:E'; [|reflexivity].
    apply text_eqb_eq in E'. subst. now rewrite text_eqb_refl in E.
Qed.

Lemma split_nonempty (d : N) (s : str) : split d s <> [].
Proof.
  destruct s as [|c s]; simpl; [discriminate|].
  destruct (N.eqb c d); [discriminate|].
  destruct (split d s); discriminate.
Qed.

Lemma value_eqb_refl (v : value) : value_eqb v v = true.
Proof.
  destruct v; simpl; [apply text_eqb_refl | apply Qeq_bool_refl].
Qed.

Lemma value_eqb_sym (v w : value) :
  value_eqb v w = true -> value_eqb w v = true.
Proof.
  destruct v, w; simpl; try discriminate.
  - now rewrite text_eqb_sym.
  - apply Qeq_bool_sym.
Qed.

Lemma value_eqb_trans (a b c : value) :
  value_eqb a b = true -> value_eqb b c = true -> value_eqb a c = true.
Proof.
  destruct a, b, c; simpl; try discriminate.
  - rewrite !text_eqb_eq. congruence.
  - apply Qeq_bool_trans.
Qed.

Lemma cell_eqb_refl (c : cell) : cell_eqb c c = true.
Proof. destruct c; simpl; [apply value_eqb_refl | reflexivity]. Qed.

Lemma cell_eqb_sym (a b : cell) : cell_eqb a b = true -> cell_eqb b a = true.
Proof.
  destruct a, b; simpl; try discriminate; auto using value_eqb_sym.
Qed.

Lemma cell_eqb_trans (a b c : cell) :
  cell_eqb a b = true -> cell_eqb b c = true -> cell_eqb a c = true.
Proof.
  destruct a, b, c; simpl; try discriminate; eauto using value_eqb_trans.
Qed.

(** ** Masks *)

Lemma filter_by_mask {A} (f : A -> bool) (l : list A) :
  List.map fst (filter snd (combine l (List.map f l))) = filter f l.
Proof.
  induction l as [|a l IH]; simpl; [reflexivity|].
  destruct (f a); simpl; congruence.
Qed.

Lemma rows_select_column (d : DataFrame) (name : str) (p : cell -> bool) :
  rows (select d (List.map p (column d name)))
  = filter (fun r => p (get d name r)) (rows d).
Proof.
  unfold select, column; simpl. rewrite map_map. apply filter_by_mask.
Qed.

Lemma column_select (d : DataFrame) (mask : list bool) (name : str) :
  column (select d mask) name = List.map (get d name) (rows (select d mask)).
Proof. reflexivity. Qed.

(** ** Sums over groups *)

Lemma count_insert_sorted (f : cell -> bool) (c : cell) (l : list cell) :
  List.length (filter f (insert_sorted c l))
  = List.length (filter f (c :: l)).
Proof.
  induction l as [|d l IH]; [reflexivity|].
  simpl insert_sorted. destruct (cell_leb c d); [reflexivity|].
  simpl in *. destruct (f d), (f c); simpl in *; lia.
Qed.

Lemma count_sort_keys (f : cell -> bool) (l : list cell) :
  List.length (filter f (sort_keys l)) = List.length (filter f l).
Proof.
  induction l as [|c l IH]; [reflexivity|].
  unfold sort_keys in *. simpl fold_right.
  rewrite count_insert_sorted. simpl. destruct (f c); simpl; lia.
Qed.

Lemma filter_same_key_removed (x c : cell) (m : list cell) :
  cell_eqb x c = true ->
  filter (cell_eqb x) (filter (fun d => negb (cell_eqb d c)) m) = [].
Proof.
  intros E. induction m as [|d m IHm]; [reflexivity|].
  simpl. destruct (cell_eqb d c) eqn:Edc; simpl; [exact IHm|].
  destruct (cell_eqb x d) eqn:Exd; [|exact IHm].
  exfalso. apply cell_eqb_sym in Exd.
  rewrite (cell_eqb_trans _ _ _ Exd E) in Edc. discriminate.
Qed.

Lemma filter_other_key_removed (x c : cell) (m : list cell) :
  cell_eqb x c = false ->
  filter (cell_eqb x) (filter (fun d => negb (cell_eqb d c)) m)
  = filter (cell_eqb x) m.
Proof.
  intros E. induction m as [|d m IHm]; [reflexivity|].
  simpl. destruct (cell_eqb d c) eqn:Edc; simpl.
  - destruct (cell_eqb x d) eqn:Exd; [|exact IHm].
    exfalso. rewrite (cell_eqb_trans _ _ _ Exd Edc) in E. discriminate.
  - destruct (cell_eqb x d); [f_equal|]; exact IHm.
Qed.

Lemma count_unique (x : cell) (l : list cell) :
  List.length (filter (cell_eqb x) (unique l))
  = if existsb (cell_eqb x) l then 1 else 0.
Proof.
  induction l as [|c l IH]; [reflexivity|].
  simpl. destruct (cell_eqb x c) eqn:E; simpl.
  - now rewrite filter_same_key_removed.
  - now rewrite filter_other_key_removed.
Qed.

Lemma existsb_dropna (x : cell) (l : list cell) :
  existsb (cell_eqb x) (dropna l) = notnull x && existsb (cell_eqb x) l.
Proof.
  induction l as [|c l IH]; simpl.
  - now rewrite andb_false_r.
  - destruct c as [v|]; simpl; rewrite IH.
    + destruct x; simpl; [|reflexivity].
      now destruct (value_eqb v0 v).
    + destruct x; reflexivity.
Qed.

Lemma count_group_keys (x : cell) (l : list cell) :
  List.length (filter (cell_eqb x) (sort_keys (unique (dropna l))))
  = if notnull x && existsb (cell_eqb x) l then 1 else 0.
Proof.
  now rewrite count_sort_keys, count_unique, existsb_dropna.
Qed.

Lemma total_no_match (x : cell) (q : Q) (ks : list cell) :
  List.length (filter (cell_eqb x) ks) = 0 ->
  (total (List.map (fun k => (k, if cell_eqb x k then q else 0%Q)) ks) == 0)%Q.
Proof.
  induction ks as [|k ks IH]; simpl; [reflexivity|].
  destruct (cell_eqb x k); simpl; [discriminate|].
  intros H. rewrite (IH H). ring.
Qed.

Lemma total_one_match (x : cell) (q : Q) (ks : list cell) :
  List.length (filter (cell_eqb x) ks) = 1 ->
  (total (List.map (fun k => (k, if cell_eqb x k then q else 0%Q)) ks) == q)%Q.
Proof.
  induction ks as [|k ks IH]; simpl; [discriminate|].
  destruct (cell_eqb x k); simpl; intros H.
  - injection H as H. rewrite (total_no_match x q ks H). ring.
  - rewrite (IH H). ring.
Qed.

Section Groups.

Variables kf vf : list cell -> cell.

Lemma total_groups_cons (r : list cell) (rs : list (list cell))
      (ks : list cell) :
  (total (List.map (fun k => (k, sum (List.map vf
             (filter (fun r' => cell_eqb (kf r') k) (r :: rs))))) ks)
   == total (List.map (fun k => (k, if cell_eqb (kf r) k
                                    then number (vf r) else 0%Q)) ks)
      + total (List.map (fun k => (k, sum (List.map vf
             (filter (fun r' => cell_eqb (kf r') k) rs)))) ks))%Q.
Proof.
  induction ks as [|k ks IH]; simpl total; [ring|].
  simpl map in *. unfold total in *. simpl fold_right. rewrite IH.
  simpl filter. destruct (cell_eqb (kf r) k); simpl; ring.
Qed.

Lemma total_groups_nil (ks : list cell) :
  (total (List.map (fun k => (k, sum (List.map vf
             (filter (fun r' => cell_eqb (kf r') k) [])))) ks) == 0)%Q.
Proof.
  induction ks as [|k ks IH]; simpl; [reflexivity|].
  simpl in IH. rewrite IH. ring.
Qed.

Lemma groups_partition (ks : list cell) (rs : list (list cell)) :
  (forall r, In r rs ->
     List.length (filter (cell_eqb (kf r)) ks)
     = if notnull (kf r) then 1 else 0) ->
  (total (List.map (fun k => (k, sum (List.map vf
             (filter (fun r' => cell_eqb (kf r') k) rs)))) ks)
   == sum (List.map vf (filter (fun r => notnull (kf r)) rs)))%Q.
Proof.
  induction rs as [|r rs IH]; intros Hcount.
  - apply total_groups_nil.
  - rewrite total_groups_cons, IH by (intros; apply Hcount; now right).
    specialize (Hcount r (or_introl eq_refl)).
    simpl filter. destruct (notnull (kf r)); simpl.
    + rewrite (total_one_match _ _ _ Hcount). reflexivity.
    + rewrite (total_no_match _ _ _ Hcount). ring.
Qed.

Lemma groups_conserve (rs : list (list cell)) :
  (total (List.map (fun k => (k, sum (List.map vf
             (filter (fun r' => cell_eqb (kf r') k) rs))))
           (sort_keys (unique (dropna (List.map kf rs)))))
   == sum (List.map vf (filter (fun r => notnull (kf r)) rs)))%Q.
Proof.
  apply groups_partition. intros r Hr.
  rewrite count_group_keys.
  assert (E : existsb (cell_eqb (kf r)) (List.map kf rs) = true).
  { apply existsb_exists. exists (kf r). split.
    - now apply in_map.
    - apply cell_eqb_refl. }
  rewrite E, andb_true_r. reflexivity.
Qed.

End Groups.

(** ** Exact sums

    On a column of whole numbers whose magnitudes add up to less than 2^53,
    the sum of the column and the sum of every selection of it are whole
    numbers below 2^53 in magnitude. *)

Lemma Qred_whole (z : Z) : Qred (inject_Z z) = inject_Z z.
Proof.
  unfold inject_Z, Qred.
  pose proof (Z.ggcd_gcd z 1) as Hg.
  pose proof (Z.ggcd_correct_divisors z 1) as Hd.
  destruct (Z.ggcd z 1) as [g [a b]]. simpl in *.
  rewrite Z.gcd_1_r in Hg. subst g. destruct Hd as [Ha Hb].
  replace a with z by lia. replace b with 1%Z by lia. reflexivity.
Qed.

Lemma exact_value_whole (q : Q) (z : Z) :
  (q == inject_Z z)%Q -> (Z.abs z < 2 ^ 53)%Z -> exact_value q = true.
Proof.
  intros Hq Hz. unfold exact_value.
  rewrite (Qred_complete _ _ Hq), Qred_whole. simpl.
  now apply Z.ltb_lt.
Qed.

Lemma number_whole (c : cell) :
  whole_number c = true ->
  (number c == inject_Z (Qnum (Qred (number c))))%Q
  /\ Z.abs (Qnum (Qred (number c))) = magnitude c.
Proof.
  destruct c as [[s|q]|]; cbn [whole_number number magnitude];
    [discriminate| |split; reflexivity].
  intros H. apply Pos.eqb_eq in H. split; [|reflexivity].
  rewrite <- (Qred_correct q) at 1.
  destruct (Qred q) as [n d]. simpl in *. subst d. reflexivity.
Qed.

Lemma magnitude_nonneg (c : cell) : (0 <= magnitude c)%Z.
Proof. destruct c as [[s|q]|]; simpl; lia. Qed.

Lemma sum_whole (l : list cell) :
  forallb whole_number l = true ->
  exists z : Z,
    (sum l == inject_Z z)%Q
    /\ (Z.abs z <= fold_right (fun c acc => Z.add (magnitude c) acc) 0%Z l)%Z.
Proof.
  induction l as [|c l IH]; simpl.
  - intros _. exists 0%Z. split; [reflexivity | simpl; lia].
  - intros H. apply andb_true_iff in H as [Hc Hl].
    destruct (IH Hl) as [z [Ez Hz]].
    destruct (number_whole c Hc) as [Ec Hm].
    exists (Qnum (Qred (number c)) + z)%Z. split.
    + rewrite inject_Z_plus, <- Ec, <- Ez. reflexivity.
    + lia.
Qed.

Lemma exact_costs_sum (l : list cell) :
  exact_costs l = true -> exact_value (sum l) = true.
Proof.
  unfold exact_costs. intros H. apply andb_true_iff in H as [Hw Hb].
  apply Z.ltb_lt in Hb.
  destruct (sum_whole l Hw) as [z [Ez Hz]].
  apply (exact_value_whole _ z Ez). lia.
Qed.

Lemma exact_costs_selection {A} (f : A -> cell) (rs : list A)
      (mask : list bool) :
  exact_costs (List.map f rs) = true ->
  exact_costs (List.map f (List.map fst (filter snd (combine rs mask))))
  = true.
Proof.
  unfold exact_costs. intros H. apply andb_true_iff in H as [Hw Hb].
  apply Z.ltb_lt in Hb.
  assert (G : forallb whole_number
                (List.map f (List.map fst (filter snd (combine rs mask))))
              = true
              /\ (fold_right (fun c acc => Z.add (magnitude c) acc) 0%Z
                    (List.map f (List.map fst (filter snd (combine rs mask))))
                  <= fold_right (fun c acc => Z.add (magnitude c) acc) 0%Z
                       (List.map f rs))%Z).
  { clear Hb. revert mask Hw.
    induction rs as [|r rs IH]; intros mask Hw;
      [split; [reflexivity | simpl; lia]|].
    simpl in Hw. apply andb_true_iff in Hw as [Hr Hw].
    destruct mask as [|b mask].
    - split; [reflexivity|]. simpl.
      pose proof (magnitude_nonneg (f r)).
      destruct (IH [] Hw) as [_ H0]. simpl in H0.
      replace (combine rs []) with (@nil (A * bool)) in H0
        by (now destruct rs).
      simpl in H0. lia.
    - destruct (IH mask Hw) as [H1 H2].
      pose proof (magnitude_nonneg (f r)).
      simpl. destruct b; simpl; [rewrite Hr, H1; split; [reflexivity | lia]|].
      split; [exact H1 | lia]. }
  destruct G as [G1 G2]. rewrite G1. simpl. apply Z.ltb_lt. lia.
Qed.

Lemma exact_costs_select (d : DataFrame) (mask : list bool) (val : str) :
  exact_costs (column d val) = true ->
  exact_costs (column (select d mask) val) = true.
Proof. apply exact_costs_selection. Qed.

Lemma exact_value_eq (p q : Q) :
  (p == q)%Q -> exact_value q = true -> exact_value p = true.
Proof.
  intros E. unfold exact_value. now rewrite (Qred_complete _ _ E).
Qed.

(** C1 (as stated, refuted): in [half_tagged] the groups hold 10 of the 15
    dollars, because the record with a missing tag is in no group. *)
Lemma C1_missing_tag_loses_cost :
  ~ (total (groupby_sum half_tagged Tagged MonthlyCostUSD)
     == sum (column half_tagged MonthlyCostUSD))%Q.
Proof. vm_compute. discriminate. Qed.

Lemma groupby_sum_exact (d : DataFrame) (key val : str) :
  exact_costs (column d val) = true ->
  Forall (fun kq => exact_value (snd kq) = true) (groupby_sum d key val).
Proof.
  intros H. unfold groupby_sum. apply Forall_forall. intros kq Hin.
  apply in_map_iff in Hin as [k [<- _]]. cbn [snd].
  now apply exact_costs_sum, exact_costs_select.
Qed.

(** C1 (amended): for every table whose costs are whole numbers with
    magnitudes adding up to less than 2^53, the sums of cost by tag status
    add up to the cost of the records whose tag status is not missing.
    Each of these sums is a whole number below 2^53 in magnitude, so that
    the program's additions, of 64-bit floats or integers, are exact. *)
Theorem C1_cost_by_tag_conserves_tagged_cost (d : DataFrame) :
  exact_costs (column d MonthlyCostUSD) = true ->
  (total (groupby_sum d Tagged MonthlyCostUSD)
   == sum (column (dropna_subset d Tagged) MonthlyCostUSD))%Q
  /\ Forall (fun kq => exact_value (snd kq) = true)
            (groupby_sum d Tagged MonthlyCostUSD)
  /\ exact_value (sum (column (dropna_subset d Tagged) MonthlyCostUSD))
     = true.
Proof.
  intros Hexact. split; [|split].
  - unfold groupby_sum, dropna_subset.
    rewrite column_select, rows_select_column.
    rewrite (map_ext _
      (fun k => (k, sum (List.map (get d MonthlyCostUSD)
                   (filter (fun r => cell_eqb (get d Tagged r) k) (rows d)))))).
    + apply groups_conserve.
    + intros k. now rewrite column_select, rows_select_column.
  - now apply groupby_sum_exact.
  - now apply exact_costs_sum, exact_costs_select.
Qed.

Lemma C1_cost_by_tag_conserves_tagged_cost_witness :
  exact_costs (column half_tagged MonthlyCostUSD) = true
  /\ (total (groupby_sum half_tagged Tagged MonthlyCostUSD) == 10)%Q.
Proof.
  split; [reflexivity|].
  rewrite (proj1 (C1_cost_by_tag_conserves_tagged_cost half_tagged eq_refl)).
  reflexivity.
Defined.

(** ** Incomplete records *)

Lemma rows_select_incomplete (d : DataFrame) (fields : list str) :
  rows (select d (incomplete_mask d fields))
  = filter (fun r => existsb isnull
                       (flat_map (fun n => cells_under n (columns d) r) fields))
           (rows d).
Proof.
  unfold select, incomplete_mask, take_columns; simpl.
  rewrite map_map. apply filter_by_mask.
Qed.

Lemma cells_under_present (name : str) (cols : list str) (row : list cell) :
  List.length cols <= List.length row ->
  forallb notnull row = true ->
  existsb isnull (cells_under name cols row) = false.
Proof.
  revert row. induction cols as [|c cols IH]; intros row Hlen Hrow;
    [reflexivity|].
  destruct row as [|x row]; simpl in Hlen; [lia|].
  simpl in Hrow. apply andb_true_iff in Hrow as [Hx Hrow].
  simpl. destruct (Text.eqb c name); simpl.
  - rewrite (IH row) by (auto; lia).
    destruct x; [reflexivity | discriminate].
  - apply IH; auto; lia.
Qed.

Lemma take_present (cols : list str) (row : list cell) (fields : list str) :
  List.length cols <= List.length row ->
  forallb notnull row = true ->
  existsb isnull (flat_map (fun n => cells_under n cols row) fields) = false.
Proof.
  intros Hlen Hrow. induction fields as [|n fields IH]; [reflexivity|].
  simpl. rewrite existsb_app, IH, (cells_under_present _ _ _ Hlen Hrow).
  reflexivity.
Qed.

Lemma filled_notnull (row : list cell) :
  forallb notnull
    (List.map (fun c => match c with
                        | None => Some (VStr [])
                        | Some v => Some v
                        end) row) = true.
Proof.
  induction row as [|c row IH]; [reflexivity|].
  simpl. rewrite IH. now destruct c.
Qed.

Lemma filter_none {A} (p : A -> bool) (l : list A) :
  (forall x, In x l -> p x = false) -> filter p l = [].
Proof.
  induction l as [|a l IH]; intros H; [reflexivity|].
  simpl. rewrite (H a (or_introl eq_refl)). apply IH.
  intros x Hx. apply H. now right.
Qed.

Lemma filter_twice {A} (p : A -> bool) (l : list A) :
  filter p (filter p l) = filter p l.
Proof.
  induction l as [|a l IH]; [reflexivity|].
  simpl. destruct (p a) eqn:E; simpl; [rewrite E; f_equal|]; exact IH.
Qed.

Lemma rows_incomplete_df (d : DataFrame) (fields : list str) :
  rows (incomplete_df d fields)
  = List.map (List.map (fun c => match c with
                                 | None => Some (VStr [])
                                 | Some v => Some v
                                 end))
      (filter (fun r => existsb isnull
                          (flat_map (fun n => cells_under n (columns d) r)
                                    fields))
              (rows d)).
Proof.
  unfold incomplete_df, fillna_empty. cbn [rows].
  now rewrite rows_select_incomplete.
Qed.

(** C2 (as stated, refuted): the one incomplete record of [one_incomplete]
    is in the output, and no record is in the output of the second pass. *)
Lemma C2_second_pass_finds_nothing :
  rows (incomplete_df (incomplete_df one_incomplete (tag_fields one_incomplete))
                      (tag_fields one_incomplete))
  <> rows (incomplete_df one_incomplete (tag_fields one_incomplete)).
Proof. vm_compute. discriminate. Qed.

(** C2 (amended): selecting the records with a missing tag field is
    idempotent as long as missing cells stay missing; once they are rendered
    as empty text, as in the output of [incompleteResources], a second pass
    with the same tag fields finds no record at all. *)
Theorem C2_selection_idempotent_until_rendered
        (d : DataFrame) (fields : list str) :
  rectangular d = true ->
  select (select d (incomplete_mask d fields))
         (incomplete_mask (select d (incomplete_mask d fields)) fields)
  = select d (incomplete_mask d fields)
  /\ rows (incomplete_df (incomplete_df d fields) fields) = [].
Proof.
  intros Hrect. split.
  - set (d1 := select d (incomplete_mask d fields)).
    assert (E : rows (select d1 (incomplete_mask d1 fields)) = rows d1).
    { rewrite rows_select_incomplete. subst d1.
      rewrite rows_select_incomplete. simpl columns. apply filter_twice. }
    unfold select at 1. simpl columns.
    change (List.map fst (filter snd (combine (rows d1)
                                              (incomplete_mask d1 fields))))
      with (rows (select d1 (incomplete_mask d1 fields))).
    rewrite E. reflexivity.
  - rewrite rows_incomplete_df.
    rewrite filter_none; [reflexivity|].
    intros r Hr. rewrite rows_incomplete_df in Hr.
    apply in_map_iff in Hr as [r0 [<- Hr0]].
    apply filter_In in Hr0 as [Hr0 _].
    unfold rectangular in Hrect. rewrite forallb_forall in Hrect.
    specialize (Hrect r0 Hr0). apply Nat.eqb_eq in Hrect.
    change (columns (incomplete_df d fields)) with (columns d).
    apply take_present; [|apply filled_notnull].
    rewrite length_map. unfold cell in *. lia.
Qed.

Lemma C2_selection_idempotent_until_rendered_witness :
  rectangular one_incomplete = true
  /\ rows (incomplete_df (incomplete_df one_incomplete [Department])
                         [Department]) = [].
Proof.
  split; [reflexivity|].
  apply (C2_selection_idempotent_until_rendered one_incomplete [Department]).
  reflexivity.
Defined.

(** ** What the script does to the table *)

Ltac run_script :=
  unfold lift, when, try_except;
  unfold bind, st, read_df, assign_df, ret, raise.

Lemma keeps_ret {A} (a : A) : keeps_table (ret a).
Proof. now intros w. Qed.

Lemma keeps_raise {A} (e : exn) : keeps_table (@raise A e).
Proof. now intros w. Qed.

Lemma keeps_st (e : event) : keeps_table (st e).
Proof. now intros w. Qed.

Lemma keeps_read_df : keeps_table read_df.
Proof. now intros w. Qed.

Lemma keeps_bind {A B} (c : script A) (k : A -> script B) :
  keeps_table c -> (forall a, keeps_table (k a)) -> keeps_table (bind c k).
Proof.
  intros Hc Hk w. unfold bind. specialize (Hc w).
  destruct (c w) as [[e|a] w']; simpl in *; [exact Hc|].
  now rewrite Hk.
Qed.

Lemma keeps_when (b : bool) (c : script unit) :
  keeps_table c -> keeps_table (when b c).
Proof. destruct b; simpl; auto using keeps_ret. Qed.

Lemma keeps_if {A} (b : bool) (c1 c2 : script A) :
  keeps_table c1 -> keeps_table c2 -> keeps_table (if b then c1 else c2).
Proof. now destruct b. Qed.

Create HintDb frame.
#[local] Hint Resolve keeps_ret keeps_raise keeps_st keeps_read_df
  keeps_bind keeps_when keeps_if : frame.

Lemma keeps_task1 : keeps_table task1.
Proof. unfold task1. auto 12 with frame. Qed.

Lemma keeps_task2 : keeps_table task2.
Proof. unfold task2. auto 12 with frame. Qed.

Lemma keeps_task4 (ticked : string -> cell -> bool) :
  keeps_table (task4 ticked).
Proof. unfold task4. auto 12 with frame. Qed.

Lemma keeps_task5 (number_text : Q -> str)
      (data_editor : DataFrame -> DataFrame) :
  keeps_table (task5 number_text data_editor).
Proof. unfold task5. auto 12 with frame. Qed.

Lemma df_after_assign {A} (d : DataFrame) (k : unit -> script A) (w : world) :
  (forall a, keeps_table (k a)) ->
  df (snd (bind (assign_df d) k w)) = d.
Proof. intros Hk. unfold bind, assign_df. now rewrite Hk. Qed.

Lemma df_after_task3 (number_text : Q -> str) (w : world) :
  df (snd (task3 number_text w))
  = if negb (empty (df w)) && nonempty (tag_fields (df w))
    then set_column (df w) CompletenessScore
           (List.map score_cell (completeness_score (df w) (tag_fields (df w))))
    else df w.
Proof.
  unfold task3. unfold bind at 1. unfold read_df at 1.
  destruct (negb (empty (df w)) && nonempty (tag_fields (df w))).
  - apply df_after_assign. auto 12 with frame.
  - reflexivity.
Qed.

(** ** Writing one column *)

Lemma index_of_app_other (name n : str) (cols : list str) :
  name <> n -> index_of name (cols ++ [n]) = index_of name cols.
Proof.
  intros Hn. induction cols as [|c cols IH]; simpl.
  - assert (E : Text.eqb n name = false) by (apply text_eqb_neq; congruence).
    now rewrite E.
  - now rewrite IH.
Qed.

Lemma index_of_lt (name : str) (cols : list str) (i : nat) :
  index_of name cols = Some i -> i < List.length cols.
Proof.
  revert i. induction cols as [|c cols IH]; intros i; simpl; [discriminate|].
  destruct (Text.eqb c name).
  - intros [= <-]. lia.
  - destruct (index_of name cols) as [j|]; simpl; [|discriminate].
    intros [= <-]. specialize (IH j eq_refl). lia.
Qed.

Lemma index_of_nth (name : str) (cols : list str) (i : nat) :
  index_of name cols = Some i -> nth_error cols i = Some name.
Proof.
  revert i. induction cols as [|c cols IH]; intros i; simpl; [discriminate|].
  destruct (Text.eqb c name) eqn:E.
  - intros [= <-]. apply text_eqb_eq in E. now subst.
  - destruct (index_of name cols) as [j|]; simpl; [|discriminate].
    intros [= <-]. simpl. now apply IH.
Qed.

Lemma nth_replace_other (i j : nat) (c : cell) (row : list cell) :
  i <> j -> nth j (replace_nth i c row) None = nth j row None.
Proof.
  revert j row. induction i as [|i IH]; intros j [|x row] Hij; simpl;
    try reflexivity.
  - destruct j; [congruence | reflexivity].
  - destruct j; [reflexivity|]. apply IH. congruence.
Qed.

Lemma map_fst_combine {A B} (l : list A) (vals : list B) :
  List.length vals = List.length l -> List.map fst (combine l vals) = l.
Proof.
  revert vals. induction l as [|a l IH]; intros [|v vals] H; simpl in *;
    try reflexivity; try discriminate.
  f_equal. apply IH. congruence.
Qed.

Lemma set_column_frame (d : DataFrame) (n : str) (values : list cell)
      (name : str) :
  rectangular d = true ->
  List.length values = nrows d ->
  name <> n ->
  has_column (set_column d n values) name = has_column d name
  /\ column (set_column d n values) name = column d name.
Proof.
  intros Hrect Hlen Hname.
  unfold rectangular in Hrect. rewrite forallb_forall in Hrect.
  unfold set_column, has_column, column, get.
  destruct (index_of n (columns d)) as [i|] eqn:Ei; cbn [columns rows].
  - split; [reflexivity|].
    rewrite map_map.
    rewrite <- (map_fst_combine (rows d) values Hlen) at 2.
    rewrite map_map. apply map_ext. intros [r v]. cbn [fst snd].
    destruct (index_of name (columns d)) as [j|] eqn:Ej; [|reflexivity].
    apply nth_replace_other. intros ->.
    apply index_of_nth in Ei. apply index_of_nth in Ej. congruence.
  - split.
    + rewrite existsb_app. simpl.
      assert (E : Text.eqb name n = false) by now apply text_eqb_neq.
      rewrite E. now rewrite !orb_false_r.
    + rewrite index_of_app_other by assumption.
      rewrite map_map.
      rewrite <- (map_fst_combine (rows d) values Hlen) at 2.
      rewrite map_map. apply map_ext_in. intros [r v] Hin. cbn [fst snd].
      destruct (index_of name (columns d)) as [j|] eqn:Ej; [|reflexivity].
      unfold cell_at. apply app_nth1.
      apply in_combine_l in Hin. specialize (Hrect r Hin).
      apply Nat.eqb_eq in Hrect. apply index_of_lt in Ej.
      unfold cell in *. lia.
Qed.

Lemma nrows_set_column (d : DataFrame) (n : str) (values : list cell) :
  List.length values = nrows d -> nrows (set_column d n values) = nrows d.
Proof.
  intros Hlen. unfold set_column, nrows in *.
  destruct (index_of n (columns d)); cbn [rows];
    rewrite length_map, length_combine; lia.
Qed.

Lemma nth_replace_same (i : nat) (c : cell) (row : list cell) :
  i < List.length row -> nth i (replace_nth i c row) None = c.
Proof.
  revert row. induction i as [|i IH]; intros [|x row] H; simpl in *;
    try lia; [reflexivity|].
  apply IH. lia.
Qed.

Lemma map_snd_combine {A B} (l : list A) (vals : list B) :
  List.length vals = List.length l -> List.map snd (combine l vals) = vals.
Proof.
  revert vals. induction l as [|a l IH]; intros [|v vals] H; simpl in *;
    try reflexivity; try discriminate.
  f_equal. apply IH. congruence.
Qed.

Lemma column_set_column_same (d : DataFrame) (n : str) (values : list cell) :
  rectangular d = true ->
  List.length values = nrows d ->
  index_of n (columns d) <> None ->
  column (set_column d n values) n = values.
Proof.
  intros Hrect Hlen Hn.
  unfold rectangular in Hrect. rewrite forallb_forall in Hrect.
  unfold set_column, column, get.
  destruct (index_of n (columns d)) as [i|] eqn:Ei; [|congruence].
  cbn [columns rows]. rewrite Ei, map_map.
  rewrite <- (map_snd_combine (rows d) values Hlen) at 2.
  apply map_ext_in. intros [r v] Hin. cbn [fst snd].
  apply nth_replace_same.
  apply in_combine_l in Hin. specialize (Hrect r Hin).
  apply Nat.eqb_eq in Hrect. apply index_of_lt in Ei.
  unfold cell in *. lia.
Qed.

Lemma length_completeness_score (d : DataFrame) (fields : list str) :
  List.length (completeness_score d fields) = nrows d.
Proof.
  unfold completeness_score, take_columns, nrows. cbn [rows].
  now rewrite !length_map.
Qed.

(** C3 (as stated, refuted): after task set 3 has run on [one_incomplete]
    the loaded table is another table: it has a fourth column. *)
Lemma C3_score_is_stored_in_the_table :
  df (snd (task3 fraction_text (mkWorld one_incomplete [])))
  <> df (mkWorld one_incomplete []).
Proof. vm_compute. discriminate. Qed.

(** C3 (amended): the statistics, the filters, the export and the
    incomplete-resource subset leave the loaded table as it is.  Computing
    the completeness score does not: where the table is non-empty and has a
    tag field, the scores are stored in the loaded table under the label
    [CompletenessScore].  That is the only change: the record count, and
    under every other label the presence of the column and all its cells,
    missing ones included, are as before. *)
Theorem C3_only_the_score_column_is_written
        (number_text : Q -> str) (ticked : string -> cell -> bool)
        (data_editor : DataFrame -> DataFrame) (w : world) :
  rectangular (df w) = true ->
  df (snd (task1 w)) = df w
  /\ df (snd (task2 w)) = df w
  /\ df (snd (task4 ticked w)) = df w
  /\ df (snd (task5 number_text data_editor w)) = df w
  /\ df (snd (task3 number_text w))
     = (if negb (empty (df w)) && nonempty (tag_fields (df w))
        then set_column (df w) CompletenessScore
               (List.map score_cell
                         (completeness_score (df w) (tag_fields (df w))))
        else df w)
  /\ nrows (df (snd (task3 number_text w))) = nrows (df w)
  /\ forall name,
       name <> CompletenessScore ->
       has_column (df (snd (task3 number_text w))) name
       = has_column (df w) name
       /\ column (df (snd (task3 number_text w))) name = column (df w) name.
Proof.
  intros Hrect.
  assert (Hlen : List.length
            (List.map score_cell
               (completeness_score (df w) (tag_fields (df w))))
          = nrows (df w))
    by now rewrite length_map, length_completeness_score.
  repeat split.
  - apply keeps_task1.
  - apply keeps_task2.
  - apply keeps_task4.
  - apply keeps_task5.
  - apply df_after_task3.
  - rewrite df_after_task3.
    destruct (negb (empty (df w)) && nonempty (tag_fields (df w)));
      [now apply nrows_set_column | reflexivity].
  - rewrite df_after_task3.
    destruct (negb (empty (df w)) && nonempty (tag_fields (df w)));
      [now apply set_column_frame | reflexivity].
  - rewrite df_after_task3.
    destruct (negb (empty (df w)) && nonempty (tag_fields (df w)));
      [now apply set_column_frame | reflexivity].
Qed.

Lemma C3_only_the_score_column_is_written_witness :
  rectangular one_incomplete = true
  /\ nrows (df (snd (task3 fraction_text (mkWorld one_incomplete [])))) = 1
  /\ column (df (snd (task3 fraction_text (mkWorld one_incomplete []))))
            Department
     = column one_incomplete Department.
Proof.
  split; [reflexivity|].
  destruct (C3_only_the_score_column_is_written
              fraction_text nothing_ticked no_edit
              (mkWorld one_incomplete []) eq_refl)
    as (_ & _ & _ & _ & _ & Hn & Hc).
  split; [exact Hn|].
  apply (Hc Department). discriminate.
Defined.

(** ** Filters *)

Lemma index_of_absent (name : str) (cols : list str) :
  existsb (Text.eqb name) cols = false -> index_of name cols = None.
Proof.
  induction cols as [|c cols IH]; simpl; [reflexivity|].
  intros H. apply orb_false_iff in H as [Hc Hr].
  rewrite text_eqb_sym, Hc, (IH Hr). reflexivity.
Qed.

Lemma dropna_all_missing {A} (l : list A) :
  dropna (List.map (fun _ => None) l) = [].
Proof. induction l; simpl; auto. Qed.

Lemma col_filter_absent (ticked : string -> cell -> bool)
      (label : string) (col : str) (d : DataFrame) :
  has_column d col = false -> col_filter ticked label col d = [].
Proof.
  intros H. unfold col_filter, column, get.
  rewrite (index_of_absent _ _ H), dropna_all_missing. reflexivity.
Qed.

Lemma in_unique (c : cell) (l : list cell) : In c (unique l) -> In c l.
Proof.
  induction l as [|x l IH]; simpl; [auto|].
  intros [H|H]; [now left|].
  apply filter_In in H as [H _]. right. now apply IH.
Qed.

Lemma options_present (d : DataFrame) (col : str) (c : cell) :
  In c (unique (dropna (column d col))) ->
  c <> None /\ In c (column d col).
Proof.
  intros H. apply in_unique in H. apply filter_In in H as [Hin Hc].
  split; [|exact Hin]. intros ->. discriminate.
Qed.

Lemma col_filter_offered (ticked : string -> cell -> bool)
      (label : string) (col : str) (d : DataFrame) (c : cell) :
  In c (col_filter ticked label col d) ->
  In c (unique (dropna (column d col))).
Proof. intros H. now apply filter_In in H. Qed.

Lemma isin_missing (ticked : string -> cell -> bool)
      (label : string) (col : str) (d : DataFrame) :
  isin (col_filter ticked label col d) None = false.
Proof.
  unfold isin. destruct (existsb _ _) eqn:E; [|reflexivity].
  apply existsb_exists in E as [c [Hc Heq]].
  apply col_filter_offered, options_present in Hc as [Hc _].
  destruct c; [discriminate | congruence].
Qed.

Lemma filter_all {A} (l : list A) : filter (fun _ => true) l = l.
Proof. induction l; simpl; congruence. Qed.

Lemma filter_filter {A} (p q : A -> bool) (l : list A) :
  filter p (filter q l) = filter (fun x => q x && p x) l.
Proof.
  induction l as [|a l IH]; [reflexivity|].
  simpl. destruct (q a); simpl; [destruct (p a)|]; now rewrite IH.
Qed.

(** A record passes a selector if nothing is ticked in it or its cell is
    among the ticked values. *)
Lemma filter_by_rows (ticked : string -> cell -> bool)
      (label : string) (col : str) (d t : DataFrame) :
  columns t = columns d ->
  columns (filter_by ticked label col d t) = columns d
  /\ rows (filter_by ticked label col d t)
     = filter (fun r => negb (nonempty (col_filter ticked label col d))
                        || isin (col_filter ticked label col d) (get d col r))
              (rows t).
Proof.
  intros Hcols. unfold filter_by.
  destruct (has_column d col) eqn:Hhas.
  - destruct (nonempty (col_filter ticked label col d)) eqn:Hne.
    + split; [exact Hcols|].
      rewrite rows_select_column. apply filter_ext. intros r.
      unfold get. now rewrite Hcols.
    + split; [exact Hcols|]. simpl. now rewrite filter_all.
  - rewrite (col_filter_absent _ _ _ _ Hhas). simpl.
    split; [exact Hcols|]. now rewrite filter_all.
Qed.

Lemma filtered_table_rows (ticked : string -> cell -> bool) (d : DataFrame) :
  columns (filtered_table ticked d) = columns d
  /\ rows (filtered_table ticked d)
     = filter
         (fun r =>
            forallb (fun lc =>
                       negb (nonempty (col_filter ticked (fst lc) (snd lc) d))
                       || isin (col_filter ticked (fst lc) (snd lc) d)
                               (get d (snd lc) r))
                    selectors)
         (rows d).
Proof.
  unfold filtered_table.
  destruct (filter_by_rows ticked "Filter by Service"%string Service d d
                           eq_refl)
    as [C1 R1].
  destruct (filter_by_rows ticked "Filter by Region"%string Region d _ C1)
    as [C2 R2].
  destruct (filter_by_rows ticked "Filter by Department"%string Department
                           d _ C2)
    as [C3 R3].
  split; [exact C3|].
  rewrite R3, R2, R1, !filter_filter. apply filter_ext. intros r.
  simpl. now rewrite andb_true_r, andb_assoc.
Qed.

Lemma nonempty_iff {A} (l : list A) : nonempty l = true <-> l <> [].
Proof. destruct l; simpl; split; congruence. Qed.

Lemma in_filtered_table (ticked : string -> cell -> bool) (d : DataFrame)
      (r : list cell) :
  In r (rows (filtered_table ticked d))
  <-> In r (rows d)
      /\ forall label col,
           In (label, col) selectors ->
           col_filter ticked label col d <> [] ->
           isin (col_filter ticked label col d) (get d col r) = true.
Proof.
  destruct (filtered_table_rows ticked d) as [_ ->].
  rewrite filter_In, forallb_forall. split; intros [Hin H]; split; auto.
  - intros label col Hsel Hne. specialize (H (label, col) Hsel).
    apply nonempty_iff in Hne. cbn [fst snd] in H.
    rewrite Hne in H. exact H.
  - intros [label col] Hsel. cbn [fst snd].
    destruct (nonempty (col_filter ticked label col d)) eqn:Hne;
      [|reflexivity].
    apply H; [exact Hsel|]. now apply nonempty_iff.
Qed.

Lemma cell_eqb_exact (x c : cell) :
  is_number c = false -> cell_eqb x c = true -> x = c.
Proof.
  destruct c as [[s|q]|]; simpl; try discriminate; intros _.
  - destruct x as [[t|q]|]; simpl; try discriminate.
    intros H. apply text_eqb_eq in H. now subst.
  - destruct x; [discriminate | reflexivity].
Qed.

Lemma isin_exact (values : list cell) (c : cell) :
  is_number c = false ->
  (exists v, In v values /\ cell_eqb c v = true) <-> In c values.
Proof.
  intros Hc. split.
  - intros [v [Hv E]]. apply cell_eqb_sym in E.
    apply (cell_eqb_exact v c Hc) in E. now subst.
  - intros H. exists c. split; [exact H | apply cell_eqb_refl].
Qed.

Lemma in_unique_exact (c : cell) (l : list cell) :
  is_number c = false -> In c (unique l) <-> In c l.
Proof.
  intros Hc. split; [apply in_unique|].
  induction l as [|x l IH]; [contradiction|].
  intros [->|H]; [now left|].
  simpl. destruct (cell_eqb c x) eqn:E.
  - left. apply cell_eqb_sym in E.
    now apply (cell_eqb_exact x c Hc) in E.
  - right. apply filter_In. split; [now apply IH|]. now rewrite E.
Qed.

Lemma col_filter_exact (ticked : string -> cell -> bool)
      (label : string) (col : str) (d : DataFrame) (c : cell) :
  is_number c = false ->
  In c (col_filter ticked label col d)
  <-> ticked label c = true /\ c <> None /\ In c (column d col).
Proof.
  intros Hc. unfold col_filter, multiselect, dropna.
  rewrite filter_In, (in_unique_exact c _ Hc), filter_In.
  split.
  - intros [[Hin Hnn] Ht]. split; [exact Ht|]. split; [|exact Hin].
    intros ->. discriminate.
  - intros (Ht & Hnn & Hin). split; [|exact Ht]. split; [exact Hin|].
    now destruct c.
Qed.

(** C5: a record is in the filtered table iff, for every selector in which
    something is ticked, its cell under that column equals one of the
    ticked values; for a cell that holds text, which is what the three
    columns hold, that is to say that the cell is a member of the allowed
    set, and the allowed set of a column is made of exactly the ticked
    values that occur in the column.  A selector in which nothing is ticked
    filters nothing; and the filtered table has at most as many records as
    the original, under the same header. *)
Theorem C5_filter_contract (ticked : string -> cell -> bool) (d : DataFrame) :
  (forall r,
      In r (rows (filtered_table ticked d))
      <-> In r (rows d)
          /\ forall label col,
               In (label, col) selectors ->
               col_filter ticked label col d <> [] ->
               exists v, In v (col_filter ticked label col d)
                         /\ cell_eqb (get d col r) v = true)
  /\ (forall r,
         (forall label col, In (label, col) selectors ->
                            is_number (get d col r) = false) ->
         In r (rows (filtered_table ticked d))
         <-> In r (rows d)
             /\ forall label col,
                  In (label, col) selectors ->
                  col_filter ticked label col d <> [] ->
                  In (get d col r) (col_filter ticked label col d))
  /\ (forall label col c,
         is_number c = false ->
         In c (col_filter ticked label col d)
         <-> ticked label c = true /\ c <> None /\ In c (column d col))
  /\ (forall label col t,
         col_filter ticked label col d = [] ->
         filter_by ticked label col d t = t)
  /\ columns (filtered_table ticked d) = columns d
  /\ nrows (filtered_table ticked d) <= nrows d.
Proof.
  assert (H1 : forall r,
      In r (rows (filtered_table ticked d))
      <-> In r (rows d)
          /\ forall label col,
               In (label, col) selectors ->
               col_filter ticked label col d <> [] ->
               exists v, In v (col_filter ticked label col d)
                         /\ cell_eqb (get d col r) v = true).
  { intros r. rewrite in_filtered_table.
    split; intros [Hin H]; (split; [exact Hin|]);
      intros label col Hsel Hne; specialize (H label col Hsel Hne).
    - unfold isin in H. apply existsb_exists in H. exact H.
    - unfold isin. apply existsb_exists. exact H. }
  split; [exact H1|]. split; [|split; [|split; [|split]]].
  - intros r Htext. rewrite H1.
    split; intros [Hin H]; (split; [exact Hin|]);
      intros label col Hsel Hne; specialize (H label col Hsel Hne).
    + now apply isin_exact in H; [|apply (Htext label col Hsel)].
    + now apply isin_exact; [apply (Htext label col Hsel)|].
  - intros label col c Hc. now apply col_filter_exact.
  - intros label col t H. unfold filter_by. rewrite H. simpl.
    now destruct (has_column d col).
  - apply filtered_table_rows.
  - unfold nrows. destruct (filtered_table_rows ticked d) as [_ ->].
    apply filter_length_le.
Qed.

Lemma C5_filter_contract_witness :
  (forall label col, In (label, col) selectors ->
     is_number (get three_services col [text "r2"; None; text "eu"]) = false)
  /\ ~ In [text "r2"; None; text "eu"]
          (rows (filtered_table ec2_ticked three_services))
  /\ In [text "r1"; text "EC2"; text "us"]
        (rows (filtered_table ec2_ticked three_services)).
Proof.
  assert (Ht : forall r label col, In (label, col) selectors ->
                 In r (rows three_services) ->
                 is_number (get three_services col r) = false).
  { intros r label col Hsel Hr.
    destruct Hsel as [E|[E|[E|[]]]]; injection E as _ <-;
      destruct Hr as [<-|[<-|[<-|[]]]]; reflexivity. }
  destruct (C5_filter_contract ec2_ticked three_services)
    as (_ & H & Hallowed & _).
  split; [|split].
  - intros label col Hsel. apply (Ht _ label col Hsel). right. now left.
  - intros Hin. apply H in Hin as [_ Hin];
      [|intros label col Hsel; apply (Ht _ label col Hsel); right; now left].
    specialize (Hin "Filter by Service"%string Service (or_introl eq_refl)).
    assert (Hne : col_filter ec2_ticked "Filter by Service" Service
                             three_services <> [])
      by (vm_compute; discriminate).
    apply Hin, Hallowed in Hne as (_ & Hne & _); [|reflexivity].
    now apply Hne.
  - apply H;
      [intros label col Hsel; apply (Ht _ label col Hsel); now left|].
    split; [now left|]. intros label col Hsel Hne.
    destruct Hsel as [E|[E|[E|[]]]]; injection E as <- <-.
    + apply Hallowed; [reflexivity|].
      split; [reflexivity|]. split; [discriminate | now left].
    + exfalso. apply Hne. reflexivity.
    + exfalso. apply Hne. reflexivity.
Defined.

(** C10: where something is ticked in a selector, no record whose cell under
    that column is missing is in the filtered table; and what a selector
    offers, and so what can be ticked, is never a missing value and always a
    value of the column. *)
Theorem C10_missing_never_passes (ticked : string -> cell -> bool)
        (d : DataFrame) (label : string) (col : str) :
  In (label, col) selectors ->
  (col_filter ticked label col d <> [] ->
   forall r, In r (rows (filtered_table ticked d)) -> get d col r <> None)
  /\ (forall c, In c (unique (dropna (column d col))) ->
                c <> None /\ In c (column d col))
  /\ (forall c, In c (col_filter ticked label col d) ->
                In c (unique (dropna (column d col)))).
Proof.
  intros Hsel. split; [|split].
  - intros Hne r Hr Hmiss.
    apply in_filtered_table in Hr as [_ H].
    specialize (H label col Hsel Hne).
    rewrite Hmiss, isin_missing in H. discriminate.
  - apply options_present.
  - apply col_filter_offered.
Qed.

Lemma C10_missing_never_passes_witness :
  In ("Filter by Service"%string, Service) selectors
  /\ col_filter ec2_ticked "Filter by Service"%string Service three_services
     <> []
  /\ forall r, In r (rows (filtered_table ec2_ticked three_services)) ->
               get three_services Service r <> None.
Proof.
  assert (Hsel : In ("Filter by Service"%string, Service) selectors)
    by (left; reflexivity).
  assert (Hne : col_filter ec2_ticked "Filter by Service"%string Service
                           three_services <> [])
    by (vm_compute; discriminate).
  split; [exact Hsel|]. split; [exact Hne|].
  exact (proj1 (C10_missing_never_passes ec2_ticked three_services
                  "Filter by Service"%string Service Hsel) Hne).
Defined.

(** ** Completeness score *)

Lemma cells_under_absent (name : str) (cols : list str) (row : list cell) :
  existsb (Text.eqb name) cols = false -> cells_under name cols row = [].
Proof.
  revert row. induction cols as [|c cols IH]; intros row H; [reflexivity|].
  simpl in *. apply orb_false_iff in H as [Hc Hr].
  rewrite text_eqb_sym, Hc. now apply IH.
Qed.

Lemma cells_under_get (name : str) (cols : list str) (row : list cell) :
  distinctb cols = true ->
  existsb (Text.eqb name) cols = true ->
  cells_under name cols row
  = [match index_of name cols with
     | Some i => cell_at i row
     | None => None
     end].
Proof.
  revert row. induction cols as [|c cols IH]; intros row Hd Hin;
    [discriminate|].
  simpl in Hd. apply andb_true_iff in Hd as [Hc Hd].
  simpl in Hin. simpl. destruct (Text.eqb c name) eqn:E.
  - apply text_eqb_eq in E. subst c.
    rewrite cells_under_absent by now apply negb_true_iff.
    unfold cell_at. now destruct row.
  - rewrite text_eqb_sym, E in Hin. simpl in Hin.
    rewrite (IH (tl row) Hd Hin).
    destruct (index_of name cols); simpl; [|reflexivity].
    unfold cell_at. destruct row; [now destruct n | reflexivity].
Qed.

Lemma take_tag_fields (d : DataFrame) (r : list cell) :
  distinctb (columns d) = true ->
  flat_map (fun n => cells_under n (columns d) r) (tag_fields d)
  = List.map (fun n => get d n r) (tag_fields d).
Proof.
  intros Hd. unfold tag_fields.
  induction tag_names as [|n l IH]; [reflexivity|].
  simpl. destruct (has_column d n) eqn:Hn; [|exact IH].
  simpl. rewrite IH. unfold has_column in Hn.
  now rewrite (cells_under_get n (columns d) r Hd Hn).
Qed.

Lemma count_true_map {A} (p : A -> bool) (l : list A) :
  count_true (List.map p l) = List.length (filter p l).
Proof.
  unfold count_true. induction l as [|a l IH]; [reflexivity|].
  simpl. unfold id at 1. destruct (p a); simpl; now rewrite IH.
Qed.

Lemma filter_everything {A} (p : A -> bool) (l : list A) :
  (forall x, In x l -> p x = true) -> filter p l = l.
Proof.
  induction l as [|a l IH]; intros H; [reflexivity|].
  simpl. rewrite (H a (or_introl eq_refl)). f_equal. apply IH.
  intros x Hx. apply H. now right.
Qed.

Lemma completeness_score_rows (d : DataFrame) :
  distinctb (columns d) = true ->
  completeness_score d (tag_fields d)
  = List.map (fun r => List.length
                         (filter (fun f => notnull (get d f r)) (tag_fields d)))
             (rows d).
Proof.
  intros Hd. unfold completeness_score, take_columns. cbn [rows].
  rewrite map_map. apply map_ext. intros r.
  now rewrite take_tag_fields, map_map, count_true_map.
Qed.

(** C9: in a table with distinct labels, the score of a record is the
    number of tag fields present in the header under which the record has a
    value; it lies between 0 and the number of tag fields present; with all
    six present it is 6 for a record that has all six and 0 for a record
    that has none. *)
Theorem C9_completeness_score (d : DataFrame) :
  distinctb (columns d) = true ->
  completeness_score d (tag_fields d)
  = List.map (fun r => List.length
                         (filter (fun f => notnull (get d f r)) (tag_fields d)))
             (rows d)
  /\ Forall (fun s => 0 <= s <= List.length (tag_fields d))
            (completeness_score d (tag_fields d))
  /\ (tag_fields d = tag_names ->
      forall i r,
        nth_error (rows d) i = Some r ->
        ((forall f, In f tag_names -> get d f r <> None) ->
         nth_error (completeness_score d (tag_fields d)) i = Some 6)
        /\ ((forall f, In f tag_names -> get d f r = None) ->
            nth_error (completeness_score d (tag_fields d)) i = Some 0)).
Proof.
  intros Hd. split; [now apply completeness_score_rows|]. split.
  - rewrite completeness_score_rows by assumption.
    apply Forall_forall. intros s Hs.
    apply in_map_iff in Hs as [r [<- _]].
    split; [lia | apply filter_length_le].
  - intros Hsix i r Hr.
    rewrite completeness_score_rows by assumption.
    rewrite (map_nth_error _ _ _ Hr), Hsix.
    split; intros H; f_equal.
    + rewrite filter_everything; [reflexivity|].
      intros f Hf. specialize (H f Hf). now destruct (get d f r).
    + rewrite filter_none; [reflexivity|].
      intros f Hf. now rewrite (H f Hf).
Qed.

Lemma C9_completeness_score_witness :
  distinctb (columns six_fields) = true
  /\ completeness_score six_fields (tag_fields six_fields) = [6; 0].
Proof.
  split; [reflexivity|].
  rewrite (proj1 (C9_completeness_score six_fields eq_refl)).
  reflexivity.
Defined.

(** ** Share of untagged records *)

Lemma length_filter_map {A B} (f : A -> B) (p : B -> bool) (l : list A) :
  List.length (filter (fun a => p (f a)) l)
  = List.length (filter p (List.map f l)).
Proof.
  induction l as [|a l IH]; [reflexivity|].
  simpl. destruct (p (f a)); simpl; now rewrite IH.
Qed.

Lemma percents_app (p q : list event) :
  percents (p ++ q) = percents p ++ percents q.
Proof. apply flat_map_app. Qed.

Lemma pct_untagged_formula (d : DataFrame) :
  pct_untagged d
  = (inject_Z (Z.of_nat (List.length
                           (filter (fun c => cell_is c No) (column d Tagged))))
     / inject_Z (Z.of_nat (nrows d)) * 100)%Q.
Proof.
  unfold pct_untagged. unfold nrows at 1.
  rewrite rows_select_column.
  rewrite (length_filter_map (get d Tagged) (fun c => cell_is c No)).
  reflexivity.
Qed.

(** C8 (as stated, refuted): on the empty table, and on a table without a
    [Tagged] column, task set 1 reports no percentage at all, so it does not
    report 0. *)
Lemma C8_no_percentage_without_data :
  percents (page (snd (task1 start))) = []
  /\ percents (page (snd (task1 (mkWorld one_incomplete [])))) = [].
Proof. split; reflexivity. Qed.

(** C8 (amended): in a table with distinct labels, the percentage of
    untagged resources is the number of records with [Tagged == "No"]
    divided by the number of records, times 100, so 30 for ten records of
    which three are untagged; it is computed and reported only when the
    table is not empty, has a [Tagged] column and holds at least one such
    record, and otherwise nothing is reported. *)
Theorem C8_untagged_percentage (w : world) :
  distinctb (columns (df w)) = true ->
  percents (page (snd (task1 w)))
  = percents (page w)
    ++ (if negb (empty (df w)) && has_column (df w) Tagged
           && existsb (fun c => cell_is c No) (column (df w) Tagged)
        then [pct_untagged (df w)] else [])
  /\ pct_untagged (df w)
     = (inject_Z (Z.of_nat (List.length
                    (filter (fun c => cell_is c No) (column (df w) Tagged))))
        / inject_Z (Z.of_nat (nrows (df w))) * 100)%Q
  /\ (nrows (df w) = 10 ->
      List.length (filter (fun c => cell_is c No) (column (df w) Tagged)) = 3 ->
      (pct_untagged (df w) == 30)%Q).
Proof.
  intros Hd. split; [|split].
  - unfold task1. run_script. cbn [fst snd]. rewrite Hd.
    destruct (empty (df w)); simpl; [now rewrite app_nil_r|].
    destruct (has_column (df w) Tagged); simpl;
      [destruct (existsb _ _)|]; simpl;
      rewrite !percents_app; simpl; now rewrite ?app_nil_r.
  - apply pct_untagged_formula.
  - intros Hn Hc. rewrite pct_untagged_formula, Hn, Hc. reflexivity.
Qed.

Lemma C8_untagged_percentage_witness :
  distinctb (columns ten_records) = true
  /\ nrows ten_records = 10
  /\ List.length (filter (fun c => cell_is c No) (column ten_records Tagged))
     = 3
  /\ (pct_untagged ten_records == 30)%Q.
Proof.
  split; [reflexivity|]. split; [reflexivity|]. split; [reflexivity|].
  exact (proj2 (proj2 (C8_untagged_percentage (mkWorld ten_records [])
                         eq_refl))
               eq_refl eq_refl).
Defined.

(** ** Loading *)

Section Loading.

Variable to_numeric : str -> option Q.

Lemma load_repair_fails (file : csv_file) (e : exn) (w : world) :
  repair file = inl e ->
  load to_numeric file w
  = (inr tt, mkWorld empty_frame (page w ++ [st_error e])).
Proof. intros H. unfold load. run_script. now rewrite H. Qed.

Lemma load_coerce_fails (file : csv_file) (d : DataFrame) (e : exn)
      (w : world) :
  repair file = inr d ->
  coerce_cost to_numeric d = inl e ->
  load to_numeric file w
  = (inr tt, mkWorld empty_frame (page w ++ [st_error e])).
Proof.
  intros H H'. unfold load. run_script.
  rewrite H. cbv beta iota. now rewrite H'.
Qed.

Lemma load_succeeds (file : csv_file) (d d' : DataFrame) (w : world) :
  repair file = inr d ->
  coerce_cost to_numeric d = inr d' ->
  load to_numeric file w
  = (inr tt,
     mkWorld d' (page w ++ [st_success; st_write (Labels (columns d'))])).
Proof.
  intros H H'. unfold load. run_script.
  rewrite H. cbv beta iota. rewrite H'. cbn.
  now rewrite <- app_assoc.
Qed.

Lemma to_numeric_cells_fails (s : str) (l : list cell) :
  In (Some (VStr s)) l ->
  to_numeric s = None ->
  exists e, to_numeric_cells to_numeric l = inl e.
Proof.
  intros Hin Hs. induction l as [|c l IH]; [contradiction|].
  destruct Hin as [-> | Hin].
  - simpl. rewrite Hs. eauto.
  - destruct (IH Hin) as [e He]. simpl. rewrite He.
    destruct c as [[t|q]|]; [destruct (to_numeric t)| |]; eauto.
Qed.

Lemma to_numeric_cells_length (l r : list cell) :
  to_numeric_cells to_numeric l = inr r -> List.length r = List.length l.
Proof.
  revert r. induction l as [|c l IH]; intros r; simpl.
  - now intros [= <-].
  - destruct (match c with
              | Some (VStr s) =>
                  match to_numeric s with
                  | Some q => inr (Some (VNum q))
                  | None => inl (NotNumeric s)
                  end
              | _ => inr c
              end) as [e|c']; [discriminate|].
    destruct (to_numeric_cells to_numeric l) as [e|r']; [discriminate|].
    intros [= <-]. simpl. now rewrite (IH r' eq_refl).
Qed.

Lemma coerce_cost_non_numeric (d : DataFrame) (s : str) :
  In (Some (VStr s)) (column d MonthlyCostUSD) ->
  to_numeric s = None ->
  exists e, coerce_cost to_numeric d = inl e.
Proof.
  intros Hin Hs. unfold coerce_cost.
  destruct (List.length (filter (Text.eqb MonthlyCostUSD) (columns d)))
    as [|[|n]]; eauto.
  destruct (to_numeric_cells_fails s _ Hin Hs) as [e ->]. eauto.
Qed.

Lemma index_of_found (n : str) (cols : list str) :
  filter (Text.eqb n) cols <> [] -> index_of n cols <> None.
Proof.
  induction cols as [|c cols IH]; simpl; [congruence|].
  rewrite (text_eqb_sym c n).
  destruct (Text.eqb n c); [discriminate|].
  intros H. specialize (IH H). now destruct (index_of n cols).
Qed.

Lemma coerce_cost_frame (d d' : DataFrame) :
  rectangular d = true ->
  coerce_cost to_numeric d = inr d' ->
  columns d' = columns d
  /\ nrows d' = nrows d
  /\ forall name, name <> MonthlyCostUSD -> column d' name = column d name.
Proof.
  intros Hrect. unfold coerce_cost.
  destruct (List.length (filter (Text.eqb MonthlyCostUSD) (columns d)))
    as [|[|n]] eqn:Hcount; try discriminate.
  destruct (to_numeric_cells to_numeric (column d MonthlyCostUSD))
    as [e|cost] eqn:Hcost; [discriminate|].
  intros [= <-].
  assert (Hlen : List.length cost = nrows d).
  { rewrite (to_numeric_cells_length _ _ Hcost).
    unfold column, nrows. apply length_map. }
  split; [|split].
  - unfold set_column.
    destruct (index_of MonthlyCostUSD (columns d)) eqn:Ei; [reflexivity|].
    apply index_of_found in Ei; [contradiction|].
    intros E. now rewrite E in Hcount.
  - now apply nrows_set_column.
  - intros name Hname. now apply set_column_frame.
Qed.

Lemma to_numeric_cells_numeric (l r : list cell) :
  to_numeric_cells to_numeric l = inr r -> forallb is_numeric r = true.
Proof.
  revert r. induction l as [|c l IH]; intros r; simpl.
  - now intros [= <-].
  - destruct (to_numeric_cells to_numeric l) as [e|r'].
    + destruct c as [[s|q]|]; [destruct (to_numeric s)| |]; discriminate.
    + specialize (IH r' eq_refl).
      destruct c as [[s|q]|]; [destruct (to_numeric s)| |];
        try discriminate; intros [= <-]; simpl; exact IH.
Qed.

(** After a successful coercion the cost column holds numbers and missing
    cells only. *)
Lemma coerce_cost_numeric (d d' : DataFrame) :
  rectangular d = true ->
  coerce_cost to_numeric d = inr d' ->
  forallb is_numeric (column d' MonthlyCostUSD) = true.
Proof.
  intros Hrect. unfold coerce_cost.
  destruct (List.length (filter (Text.eqb MonthlyCostUSD) (columns d)))
    as [|[|n]] eqn:Hcount; try discriminate.
  destruct (to_numeric_cells to_numeric (column d MonthlyCostUSD))
    as [e|cost] eqn:Hcost; [discriminate|].
  intros [= <-].
  rewrite column_set_column_same.
  - now apply to_numeric_cells_numeric with (column d MonthlyCostUSD).
  - exact Hrect.
  - rewrite (to_numeric_cells_length _ _ Hcost).
    unfold column, nrows. apply length_map.
  - apply index_of_found. intros E. now rewrite E in Hcount.
Qed.

(** The load itself never raises: the handler catches every exception. *)
Lemma load_returns (file : csv_file) (w : world) :
  fst (load to_numeric file w) = inr tt.
Proof.
  destruct (repair file) as [e|d] eqn:Hr.
  - now rewrite (load_repair_fails file e w Hr).
  - destruct (coerce_cost to_numeric d) as [e|d'] eqn:Hc.
    + now rewrite (load_coerce_fails file d e w Hr Hc).
    + now rewrite (load_succeeds file d d' w Hr Hc).
Qed.

End Loading.

(** On the empty table every task set is skipped; the page gets the two
    notices of task sets 3 and 5 and nothing raises. *)
Lemma downstream_empty (number_text : Q -> str)
      (ticked : string -> cell -> bool)
      (data_editor : DataFrame -> DataFrame) (p : list event) :
  downstream number_text ticked data_editor (mkWorld empty_frame p)
  = (inr tt,
     mkWorld empty_frame
       (p ++ [st_warning "No tag columns found to calculate CompletenessScore.";
              st_info "Data is empty."])).
Proof.
  unfold downstream, task1, task2, task3, task4, task5. run_script. cbn.
  now rewrite <- app_assoc.
Qed.

(** C6: when a cost is no number after blank fields were made missing, or
    when any step of the repair or of the coercion raises, the load ends
    with the empty table and one error message on the page; and on the
    empty table every later task set is skipped: nothing raises and only
    the notices that there is nothing to show appear. *)
Theorem C6_failed_load_degrades
        (to_numeric : str -> option Q) (number_text : Q -> str)
        (ticked : string -> cell -> bool)
        (data_editor : DataFrame -> DataFrame)
        (file : csv_file) (w : world) :
  (forall d s,
      repair file = inr d ->
      In (Some (VStr s)) (column d MonthlyCostUSD) ->
      to_numeric s = None ->
      exists e,
        load to_numeric file w
        = (inr tt, mkWorld empty_frame (page w ++ [st_error e])))
  /\ (forall e,
         repair file = inl e
         \/ (exists d, repair file = inr d
                       /\ coerce_cost to_numeric d = inl e) ->
         load to_numeric file w
         = (inr tt, mkWorld empty_frame (page w ++ [st_error e])))
  /\ fst (load to_numeric file w) = inr tt
  /\ (forall p,
         downstream number_text ticked data_editor (mkWorld empty_frame p)
         = (inr tt,
            mkWorld empty_frame
              (p ++ [st_warning
                       "No tag columns found to calculate CompletenessScore.";
                     st_info "Data is empty."]))).
Proof.
  split; [|split; [|split]]; [| |apply load_returns|].
  - intros d s Hd Hin Hs.
    destruct (coerce_cost_non_numeric to_numeric d s Hin Hs) as [e He].
    exists e. now apply load_coerce_fails with d.
  - intros e [H | [d [H H']]].
    + now apply load_repair_fails.
    + now apply load_coerce_fails with d.
  - apply downstream_empty.
Qed.

Lemma C6_failed_load_degrades_witness :
  main decimal fraction_text all_ticked no_edit bad_cost_file start
  = (inr tt,
     mkWorld empty_frame
       [st_error (NotNumeric (u "abc"));
        st_warning "No tag columns found to calculate CompletenessScore.";
        st_info "Data is empty."]).
Proof.
  destruct (C6_failed_load_degrades decimal fraction_text all_ticked no_edit
              bad_cost_file start) as (Hbad & _ & _ & Hdown).
  destruct (Hbad (mkFrame [ResourceID; MonthlyCostUSD]
                          [[text "r1"; text "12.50"]; [text "r2"; text "abc"]])
                 (u "abc") eq_refl (or_intror (or_introl eq_refl)) eq_refl)
    as [e He].
  unfold main, bind. rewrite He. rewrite Hdown.
  vm_compute in He. injection He as <-. reflexivity.
Defined.

(** ** Repair of a well-formed file *)

Lemma width_uniform (n : nat) (lines : list str) :
  lines <> [] ->
  (forall l, In l lines -> List.length (split comma l) = n) ->
  fold_right Nat.max 0
    (List.map (fun p : option (list str) =>
                 match p with
                 | Some l => List.length l
                 | None => 1
                 end)
              (List.map (option_map (split comma)) (List.map Some lines)))
  = n.
Proof.
  induction lines as [|l lines IH]; intros Hne Hall; [congruence|].
  simpl. rewrite (Hall l (or_introl eq_refl)).
  destruct lines as [|l' lines]; [simpl; lia|].
  rewrite IH; [lia | discriminate |].
  intros x Hx. apply Hall. now right.
Qed.

Lemma split_expand_uniform (n : nat) (lines : list str) :
  lines <> [] ->
  (forall l, In l lines -> List.length (split comma l) = n) ->
  split_expand (List.map Some lines)
  = (n, List.map (fun l => List.map (fun s => Some (VStr s)) (split comma l))
                 lines).
Proof.
  intros Hne Hall. unfold split_expand. cbv zeta.
  rewrite (width_uniform n lines Hne Hall). f_equal.
  rewrite !map_map. apply map_ext_in. intros l Hl. simpl.
  rewrite (Hall l Hl), Nat.sub_diag. apply app_nil_r.
Qed.

Lemma repair_well_formed (header_string : str) (lines : list str) :
  lines <> [] ->
  (forall l, In l lines ->
     List.length (split comma l) = List.length (split comma header_string)) ->
  repair (SingleColumn header_string (List.map Some lines))
  = inr (mkFrame
           (List.map (fun col => remove_bom (strip col))
                     (split comma header_string))
           (List.map (fun l =>
                        List.map (fun s => if blank s then None
                                           else Some (VStr s))
                                 (split comma l))
                     lines)).
Proof.
  intros Hne Hall. unfold repair.
  rewrite (split_expand_uniform _ lines Hne Hall).
  unfold cleaned_header_list. rewrite length_map, Nat.eqb_refl. simpl.
  do 2 f_equal. rewrite map_map. apply map_ext. intros l.
  rewrite map_map. apply map_ext. intros s. reflexivity.
Qed.

(** C7 (as stated, refuted): under the header [A,B,C] the record [1,,3] is
    repaired to the three cells, but the load then looks up the cost column,
    which this header does not name, and ends with the empty table. *)
Lemma C7_header_without_cost_loads_nothing :
  repair abc_file
  = inr (mkFrame [u "A"; u "B"; u "C"] [[text "1"; None; text "3"]])
  /\ load decimal abc_file start
     = (inr tt, mkWorld empty_frame [st_error (KeyError MonthlyCostUSD)])
  /\ columns (df (snd (load decimal abc_file start)))
     <> [u "A"; u "B"; u "C"].
Proof. split; [|split]; [reflexivity | reflexivity | discriminate]. Qed.

(** C7 (amended): for a header line and one or more text lines that all
    have as many comma-separated fields as the header, the repair splits
    the header on the comma, strips surrounding whitespace from each label
    and then deletes every byte-order mark from it, splits each line on the
    comma, and makes every empty or whitespace-only field missing.  The load
    keeps this table, with the cost column turned into numbers and missing
    cells and every other column as repaired, provided the header names the
    cost column once and its fields are numbers or blank; so
    [A,MonthlyCostUSD,C] over [1,,3] yields that header and the cells 1,
    missing, 3. *)
Theorem C7_ingestion_of_well_formed_input
        (to_numeric : str -> option Q)
        (header_string : str) (lines : list str) (w : world) :
  lines <> [] ->
  (forall l, In l lines ->
     List.length (split comma l) = List.length (split comma header_string)) ->
  let file := SingleColumn header_string (List.map Some lines) in
  let repaired :=
    mkFrame
      (List.map (fun col => remove_bom (strip col))
                (split comma header_string))
      (List.map (fun l =>
                   List.map (fun s => if blank s then None else Some (VStr s))
                            (split comma l))
                lines) in
  repair file = inr repaired
  /\ (forall d,
         coerce_cost to_numeric repaired = inr d ->
         load to_numeric file w
         = (inr tt,
            mkWorld d (page w ++ [st_success; st_write (Labels (columns d))]))
         /\ columns d = columns repaired
         /\ nrows d = List.length lines
         /\ forallb is_numeric (column d MonthlyCostUSD) = true
         /\ forall name,
              name <> MonthlyCostUSD ->
              column d name = column repaired name)
  /\ df (snd (load to_numeric cost_file start))
     = mkFrame [u "A"; MonthlyCostUSD; u "C"] [[text "1"; None; text "3"]].
Proof.
  intros Hne Hall file repaired.
  assert (Hrep : repair file = inr repaired)
    by now apply repair_well_formed.
  split; [exact Hrep|]. split; [|reflexivity].
  intros d Hd.
  assert (Hrect : rectangular repaired = true).
  { unfold rectangular, repaired. cbn [rows columns].
    apply forallb_forall. intros r Hr.
    apply in_map_iff in Hr as [l [<- Hl]].
    apply Nat.eqb_eq. rewrite !length_map. now apply Hall. }
  destruct (coerce_cost_frame to_numeric repaired d Hrect Hd)
    as (Hcols & Hrows & Hother).
  split; [now apply load_succeeds with repaired|].
  split; [exact Hcols|]. split; [|split; [|exact Hother]].
  - rewrite Hrows. unfold nrows, repaired. cbn [rows]. apply length_map.
  - exact (coerce_cost_numeric to_numeric repaired d Hrect Hd).
Qed.

Lemma C7_ingestion_of_well_formed_input_witness :
  [u "1,,3"] <> []
  /\ (forall l, In l [u "1,,3"] ->
        List.length (split comma l)
        = List.length (split comma (u "A,MonthlyCostUSD,C")))
  /\ repair cost_file
     = inr (mkFrame [u "A"; MonthlyCostUSD; u "C"]
                    [[text "1"; None; text "3"]]).
Proof.
  assert (H1 : [u "1,,3"] <> []) by discriminate.
  assert (H2 : forall l, In l [u "1,,3"] ->
               List.length (split comma l)
               = List.length (split comma (u "A,MonthlyCostUSD,C"))).
  { intros l [<- | []]. reflexivity. }
  split; [exact H1|]. split; [exact H2|].
  exact (proj1 (C7_ingestion_of_well_formed_input decimal
                  (u "A,MonthlyCostUSD,C") [u "1,,3"] start H1 H2)).
Defined.

(** ** Export and re-ingestion *)

Import Reader.














(** ** The table invariant along the script *)

Lemma length_replace_nth (i : nat) (c : cell) (row : list cell) :
  List.length (replace_nth i c row) = List.length row.
Proof.
  revert row. induction i as [|i IH]; intros [|x row]; simpl; auto.
Qed.

Lemma set_column_rectangular (d : DataFrame) (n : str) (values : list cell) :
  rectangular d = true -> rectangular (set_column d n values) = true.
Proof.
  unfold rectangular. rewrite !forallb_forall. intros Hrect r Hr.
  unfold set_column in Hr |- *.
  destruct (index_of n (columns d)); cbn [rows columns] in *;
    apply in_map_iff in Hr as [[r0 v] [<- Hin]]; cbn [fst snd];
    apply in_combine_l in Hin; specialize (Hrect r0 Hin);
    apply Nat.eqb_eq in Hrect; apply Nat.eqb_eq.
  - now rewrite length_replace_nth.
  - rewrite !length_app. simpl. unfold cell in *. lia.
Qed.

Lemma le_fold_max (n : nat) (l : list nat) :
  In n l -> n <= fold_right Nat.max 0 l.
Proof.
  induction l as [|m l IH]; [contradiction|].
  intros [-> | H]; simpl; [lia|]. specialize (IH H). lia.
Qed.

(** Whatever the file holds, a repaired table has one cell per label in
    every record. *)
Lemma repair_rectangular (file : csv_file) (d : DataFrame) :
  repair file = inr d -> rectangular d = true.
Proof.
  destruct file as [|h|h lines]; try discriminate.
  unfold repair, split_expand. cbv zeta.
  set (pieces := List.map (option_map (split comma)) lines).
  set (sizes := List.map (fun p : option (list str) =>
                            match p with
                            | Some l => List.length l
                            | None => 1
                            end) pieces).
  destruct (Nat.eqb (fold_right Nat.max 0 sizes)
                    (List.length (cleaned_header_list h))) eqn:E;
    [|discriminate].
  apply Nat.eqb_eq in E. simpl. intros [= <-].
  unfold rectangular. cbn [rows columns].
  apply forallb_forall. intros r Hr.
  apply in_map_iff in Hr as [r0 [<- Hr0]].
  apply in_map_iff in Hr0 as [p [<- Hp]].
  apply Nat.eqb_eq. rewrite length_map, <- E.
  destruct p as [l|].
  - rewrite length_app, length_map, repeat_length.
    assert (List.length l <= fold_right Nat.max 0 sizes).
    { apply le_fold_max. unfold sizes.
      apply in_map_iff. exists (Some l). auto. }
    lia.
  - apply repeat_length.
Qed.

Lemma coerce_cost_rectangular (to_numeric : str -> option Q)
      (d d' : DataFrame) :
  rectangular d = true ->
  coerce_cost to_numeric d = inr d' ->
  rectangular d' = true.
Proof.
  intros Hrect. unfold coerce_cost.
  destruct (List.length (filter (Text.eqb MonthlyCostUSD) (columns d)))
    as [|[|n]]; try discriminate.
  destruct (to_numeric_cells to_numeric (column d MonthlyCostUSD));
    [discriminate|].
  intros [= <-]. now apply set_column_rectangular.
Qed.

(** The table the load leaves behind always satisfies the invariant. *)
Lemma load_rectangular (to_numeric : str -> option Q) (file : csv_file)
      (w : world) :
  rectangular (df (snd (load to_numeric file w))) = true.
Proof.
  destruct (repair file) as [e|d] eqn:Hr.
  - now rewrite (load_repair_fails to_numeric file e w Hr).
  - destruct (coerce_cost to_numeric d) as [e|d'] eqn:Hc.
    + now rewrite (load_coerce_fails to_numeric file d e w Hr Hc).
    + rewrite (load_succeeds to_numeric file d d' w Hr Hc). cbn [snd df].
      apply (coerce_cost_rectangular to_numeric d d'); [|exact Hc].
      now apply repair_rectangular with file.
Qed.

(** Storing the scores keeps the invariant. *)
Lemma task3_rectangular (number_text : Q -> str) (w : world) :
  rectangular (df w) = true ->
  rectangular (df (snd (task3 number_text w))) = true.
Proof.
  intros Hrect. rewrite df_after_task3.
  destruct (negb (empty (df w)) && nonempty (tag_fields (df w)));
    [now apply set_column_rectangular | exact Hrect].
Qed.

(** ** The model on examples *)

Example cleaned_header_example :
  cleaned_header_list (BOM :: u "ResourceID , Tagged,MonthlyCostUSD ")
  = [ResourceID; Tagged; MonthlyCostUSD].
Proof. reflexivity. Qed.

Example cost_is_read_as_number :
  df (snd (load decimal
             (SingleColumn (u "ResourceID,MonthlyCostUSD")
                           [Some (u "r1,12.50"); Some (u "r2, ")])
             start))
  = mkFrame [ResourceID; MonthlyCostUSD]
            [[text "r1"; Some (VNum (1250 # 100))]; [text "r2"; None]].
Proof. reflexivity. Qed.

Example only_ec2_is_kept :
  rows (filtered_table ec2_ticked three_services)
  = [[text "r1"; text "EC2"; text "us"]].
Proof. reflexivity. Qed.

Example awkward_export :
  to_csv fraction_text awkward
  = u "ResourceID,Owner,MonthlyCostUSD" ++ [LF]
    ++ u "r1," ++ [quote] ++ u "Lee, Ann" ++ [quote] ++ u ",12" ++ [LF]
    ++ u "r2," ++ [quote] ++ u "the " ++ [quote; quote] ++ u "boss"
       ++ [quote; quote; quote] ++ u "," ++ [LF]
    ++ [quote] ++ u "r" ++ [LF] ++ u "3" ++ [quote] ++ u ",,7" ++ [LF].
Proof. reflexivity. Qed.

Example lonely_round_trip :
  to_csv fraction_text lonely = u "Owner" ++ [LF; quote; quote; LF]
  /\ Reader.read_table (to_csv fraction_text lonely)
     = Some ([Owner], [[[]]]).
Proof. split; reflexivity. Qed.

Example crlf_is_read :
  Reader.read_table (u "a,b" ++ [CR; LF] ++ u "1,2" ++ [CR; LF])
  = Some ([u "a"; u "b"], [[u "1"; u "2"]]).
Proof. reflexivity. Qed.

(** * Further properties of the script *)

(** ** Splitting and cleaning of labels *)

Lemma join_cons_head (sep c : N) (f : str) (fs : list str) :
  join sep ((c :: f) :: fs) = c :: join sep (f :: fs).
Proof. destruct fs; reflexivity. Qed.

Lemma join_split (d : N) (s : str) : join d (split d s) = s.
Proof.
  induction s as [|c s IH]; [reflexivity|].
  simpl. destruct (N.eqb c d) eqn:E.
  - apply N.eqb_eq in E. subst c.
    destruct (split d s) as [|f fs] eqn:Hs; [now apply split_nonempty in Hs|].
    change (join d ([] :: f :: fs)) with (d :: join d (f :: fs)).
    now rewrite IH.
  - destruct (split d s) as [|f fs] eqn:Hs; [now apply split_nonempty in Hs|].
    now rewrite join_cons_head, IH.
Qed.

Lemma split_pieces_free (d : N) (s : str) :
  Forall (fun f => ~ In d f) (split d s).
Proof.
  induction s as [|c s IH]; simpl; [constructor; auto|].
  destruct (N.eqb c d) eqn:E; [constructor; auto|].
  destruct (split d s) as [|f fs]; [constructor; auto|].
  - intros [H|[]]. subst c. now rewrite N.eqb_refl in E.
  - inversion IH as [|? ? Hf Hfs]; subst. constructor; [|exact Hfs].
    intros [H|H]; [|now apply Hf].
    subst c. now rewrite N.eqb_refl in E.
Qed.

Lemma split_length (d : N) (s : str) :
  List.length (split d s) = S (List.length (filter (N.eqb d) s)).
Proof.
  induction s as [|c s IH]; [reflexivity|].
  simpl. rewrite (N.eqb_sym d c). destruct (N.eqb c d); simpl.
  - now rewrite IH.
  - destruct (split d s); simpl in *; lia.
Qed.

Lemma split_chars (d c : N) (s f : str) :
  In f (split d s) -> In c f -> In c s.
Proof.
  revert f. induction s as [|x s IH]; intros f Hf Hc.
  - destruct Hf as [<-|[]]. contradiction.
  - simpl in Hf. destruct (N.eqb x d).
    + destruct Hf as [<-|Hf]; [contradiction|]. right. eauto.
    + destruct (split d s) as [|g gs].
      * destruct Hf as [<-|[]]. destruct Hc as [->|[]]. now left.
      * destruct Hf as [<-|Hf].
        -- destruct Hc as [->|Hc]; [now left|].
           right. apply (IH g); [now left | exact Hc].
        -- right. apply (IH f); [now right | exact Hc].
Qed.

(** X1: splitting a line on the delimiter loses nothing: the pieces joined
    by the delimiter are the line again, no piece holds the delimiter, and
    there is one piece more than there are delimiters in the line. *)
Theorem X1_split_loses_nothing (d : N) (s : str) :
  join d (split d s) = s
  /\ Forall (fun f => ~ In d f) (split d s)
  /\ List.length (split d s) = S (List.length (filter (N.eqb d) s)).
Proof.
  split; [apply join_split|].
  split; [apply split_pieces_free | apply split_length].
Qed.

Lemma lstrip_head (s : str) (c : N) :
  hd_error (lstrip s) = Some c -> is_space c = false.
Proof.
  induction s as [|x s IH]; simpl; [discriminate|].
  destruct (is_space x) eqn:E; [exact IH|].
  simpl. now intros [= <-].
Qed.

Lemma lstrip_app_nonspace (l : str) (c : N) :
  is_space c = false -> lstrip (l ++ [c]) = lstrip l ++ [c].
Proof.
  intros Hc. induction l as [|x l IH]; simpl; [now rewrite Hc|].
  now destruct (is_space x).
Qed.

Lemma rstrip_cons_nonspace (c : N) (s : str) :
  is_space c = false -> rstrip (c :: s) = c :: rstrip s.
Proof.
  intros Hc. unfold rstrip. simpl.
  now rewrite lstrip_app_nonspace, rev_app_distr.
Qed.

Lemma rstrip_last (s : str) (c : N) :
  hd_error (rev (rstrip s)) = Some c -> is_space c = false.
Proof. unfold rstrip. rewrite rev_involutive. apply lstrip_head. Qed.

Lemma strip_head (s : str) (c : N) :
  hd_error (strip s) = Some c -> is_space c = false.
Proof.
  unfold strip. destruct (lstrip s) as [|x t] eqn:E; [discriminate|].
  assert (Hx : is_space x = false) by (apply (lstrip_head s); now rewrite E).
  rewrite rstrip_cons_nonspace by assumption.
  simpl. now intros [= <-].
Qed.

Lemma strip_last (s : str) (c : N) :
  hd_error (rev (strip s)) = Some c -> is_space c = false.
Proof. apply rstrip_last. Qed.

Lemma remove_bom_free (s : str) : ~ In BOM (remove_bom s).
Proof.
  unfold remove_bom. intros H. apply filter_In in H as [_ H].
  now rewrite N.eqb_refl in H.
Qed.

Lemma remove_bom_id (s : str) : ~ In BOM s -> remove_bom s = s.
Proof.
  unfold remove_bom. intros H. apply filter_everything.
  intros c Hc. apply negb_true_iff, N.eqb_neq. intros ->. contradiction.
Qed.

Lemma in_lstrip (c : N) (s : str) : In c (lstrip s) -> In c s.
Proof.
  induction s as [|x s IH]; simpl; [auto|].
  destruct (is_space x); [right; auto | auto].
Qed.

Lemma in_strip (c : N) (s : str) : In c (strip s) -> In c s.
Proof.
  unfold strip, rstrip. intros H.
  apply in_rev, in_lstrip in H. apply in_rev in H. now apply in_lstrip.
Qed.

(** X2: no label of the cleaned header holds a byte-order mark; and where
    the header line holds none, every label is the piece of the header with
    the whitespace at both ends stripped, so that it neither starts nor
    ends with whitespace. *)
Theorem X2_cleaned_labels (header_string : str) :
  Forall (fun label => ~ In BOM label) (cleaned_header_list header_string)
  /\ (~ In BOM header_string ->
      cleaned_header_list header_string
      = List.map strip (split comma header_string)
      /\ Forall (fun label =>
                   (forall c, hd_error label = Some c -> is_space c = false)
                   /\ (forall c, hd_error (rev label) = Some c ->
                                 is_space c = false))
                (cleaned_header_list header_string)).
Proof.
  split.
  - apply Forall_forall. intros label H.
    apply in_map_iff in H as [col [<- _]]. apply remove_bom_free.
  - intros Hfree.
    assert (E : cleaned_header_list header_string
                = List.map strip (split comma header_string)).
    { unfold cleaned_header_list. apply map_ext_in. intros col Hcol.
      apply remove_bom_id. intros H. apply in_strip in H.
      apply Hfree. now apply (split_chars comma BOM header_string col). }
    split; [exact E|]. rewrite E.
    apply Forall_forall. intros label H.
    apply in_map_iff in H as [col [<- _]].
    split; [apply strip_head | apply strip_last].
Qed.

Lemma X2_cleaned_labels_witness :
  ~ In BOM (u " ResourceID ,Tagged")
  /\ cleaned_header_list (u " ResourceID ,Tagged") = [ResourceID; Tagged].
Proof.
  assert (H : ~ In BOM (u " ResourceID ,Tagged")).
  { intros H. vm_compute in H. intuition discriminate. }
  split; [exact H|].
  rewrite (proj1 (proj2 (X2_cleaned_labels (u " ResourceID ,Tagged")) H)).
  reflexivity.
Defined.

(** X3: the mark is removed after the stripping, not before.  Without a
    mark the first label is its piece stripped at both ends; behind a
    leading byte-order mark only the whitespace at its end is stripped, so
    whitespace between the mark and the name stays in the label. *)
Theorem X3_whitespace_behind_the_mark_stays (header_string : str) :
  hd [] (cleaned_header_list header_string)
  = remove_bom (strip (hd [] (split comma header_string)))
  /\ hd [] (cleaned_header_list (BOM :: header_string))
     = remove_bom (rstrip (hd [] (split comma header_string))).
Proof.
  unfold cleaned_header_list. split.
  - destruct (split comma header_string) as [|f fs] eqn:Hs;
      [now apply split_nonempty in Hs | reflexivity].
  - simpl split.
    destruct (split comma header_string) as [|f fs] eqn:Hs;
      [now apply split_nonempty in Hs|].
    simpl. unfold strip. simpl lstrip.
    rewrite rstrip_cons_nonspace by reflexivity. reflexivity.
Qed.

Example space_behind_the_mark :
  cleaned_header_list (BOM :: u " ResourceID,Tagged")
  = [u " ResourceID"; Tagged]
  /\ has_column (mkFrame (cleaned_header_list
                            (BOM :: u " ResourceID,Tagged")) [])
                ResourceID = false.
Proof. split; reflexivity. Qed.

(** ** Shapes of files and outcomes of the load *)

Lemma split_expand_text (lines : list str) :
  split_expand (List.map Some lines)
  = (fold_right Nat.max 0
       (List.map (fun l => List.length (split comma l)) lines),
     List.map
       (fun l =>
          List.map (fun s => Some (VStr s)) (split comma l)
          ++ repeat None
               (fold_right Nat.max 0
                  (List.map (fun l' => List.length (split comma l')) lines)
                - List.length (split comma l)))
       lines).
Proof.
  unfold split_expand. cbv zeta. rewrite !map_map. simpl. reflexivity.
Qed.

Lemma fold_max_lt (n : nat) (l : list nat) :
  0 < n -> (forall m, In m l -> m < n) -> fold_right Nat.max 0 l < n.
Proof.
  intros Hn. induction l as [|m l IH]; intros H; simpl; [exact Hn|].
  assert (m < n) by (apply H; now left).
  assert (fold_right Nat.max 0 l < n)
    by (apply IH; intros; apply H; now right).
  lia.
Qed.

Lemma fold_max_le (n : nat) (l : list nat) :
  (forall m, In m l -> m <= n) -> fold_right Nat.max 0 l <= n.
Proof.
  induction l as [|m l IH]; intros H; simpl; [lia|].
  assert (m <= n) by (apply H; now left).
  assert (fold_right Nat.max 0 l <= n)
    by (apply IH; intros; apply H; now right).
  lia.
Qed.

Lemma blank_to_nan_padded (fields : list str) (k : nat) :
  List.map blank_to_nan
           (List.map (fun s => Some (VStr s)) fields ++ repeat None k)
  = List.map (fun s => if blank s then None else Some (VStr s)) fields
    ++ repeat None k.
Proof.
  rewrite map_app, map_map. apply f_equal2; [reflexivity|].
  induction k as [|k IH]; [reflexivity|]. simpl. f_equal. exact IH.
Qed.

(** X4: the widest record decides the number of columns.  A record with
    more fields than the header has labels makes the repair fail, and so do
    records that all have fewer; when no record is wider than the header and
    one is as wide, the repair succeeds and every shorter record is padded
    with missing cells at its end. *)
Theorem X4_widest_record_decides (header_string : str) (lines : list str) :
  let n := List.length (split comma header_string) in
  let file := SingleColumn header_string (List.map Some lines) in
  ((exists l, In l lines /\ n < List.length (split comma l)) ->
   exists m, n < m /\ repair file = inl (LengthMismatch m n))
  /\ ((forall l, In l lines -> List.length (split comma l) < n) ->
      exists m, m < n /\ repair file = inl (LengthMismatch m n))
  /\ ((forall l, In l lines -> List.length (split comma l) <= n) ->
      (exists l, In l lines /\ List.length (split comma l) = n) ->
      repair file
      = inr (mkFrame
               (cleaned_header_list header_string)
               (List.map
                  (fun l =>
                     List.map (fun s => if blank s then None
                                        else Some (VStr s))
                              (split comma l)
                     ++ repeat None (n - List.length (split comma l)))
                  lines))).
Proof.
  intros n file.
  set (W := fold_right Nat.max 0
              (List.map (fun l => List.length (split comma l)) lines)).
  assert (Hclean : List.length (cleaned_header_list header_string) = n)
    by (unfold cleaned_header_list; apply length_map).
  assert (Hrep : forall m, W = m -> m <> n ->
                 repair file = inl (LengthMismatch m n)).
  { intros m Hm Hmn. unfold file, repair.
    rewrite split_expand_text. fold W. rewrite Hclean, Hm.
    apply Nat.eqb_neq in Hmn. now rewrite Hmn. }
  split; [|split].
  - intros [l [Hl Hlen]]. exists W. 
    assert (List.length (split comma l) <= W).
    { apply le_fold_max. apply in_map_iff. eauto. }
    split; [lia|]. apply Hrep; [reflexivity | lia].
  - intros Hall. exists W.
    assert (W < n).
    { apply fold_max_lt.
      - subst n. destruct (split comma header_string) eqn:E;
          [now apply split_nonempty in E | simpl; lia].
      - intros m Hm. apply in_map_iff in Hm as [l [<- Hl]]. now apply Hall. }
    split; [lia|]. apply Hrep; [reflexivity | lia].
  - intros Hall [l [Hl Hlen]].
    assert (HW : W = n).
    { apply Nat.le_antisymm.
      - apply fold_max_le. intros m Hm.
        apply in_map_iff in Hm as [l' [<- Hl']]. now apply Hall.
      - rewrite <- Hlen. apply le_fold_max. apply in_map_iff. eauto. }
    unfold file, repair. rewrite split_expand_text. fold W.
    rewrite Hclean, HW, Nat.eqb_refl. simpl. do 2 f_equal.
    rewrite map_map. apply map_ext. intros l'. apply blank_to_nan_padded.
Qed.

Lemma X4_widest_record_decides_witness :
  repair (SingleColumn (u "ResourceID,Owner,MonthlyCostUSD")
                       (List.map Some [u "r1,ann,5"; u "r2"]))
  = inr (mkFrame [ResourceID; Owner; MonthlyCostUSD]
                 [[text "r1"; text "ann"; text "5"];
                  [text "r2"; None; None]])
  /\ exists m,
       3 < m
       /\ repair (SingleColumn (u "ResourceID,Owner,MonthlyCostUSD")
                               (List.map Some [u "r1,ann,5,x"; u "r2"]))
          = inl (LengthMismatch m 3).
Proof.
  split.
  - refine (proj2 (proj2 (X4_widest_record_decides
                            (u "ResourceID,Owner,MonthlyCostUSD")
                            [u "r1,ann,5"; u "r2"])) _ _).
    + intros l [<-|[<-|[]]]; vm_compute; lia.
    + exists (u "r1,ann,5"). split; [now left | reflexivity].
  - refine (proj1 (X4_widest_record_decides
                     (u "ResourceID,Owner,MonthlyCostUSD")
                     [u "r1,ann,5,x"; u "r2"]) _).
    exists (u "r1,ann,5,x"). split; [now left | vm_compute; lia].
Defined.

Section Outcomes.

Variable to_numeric : str -> option Q.

Lemma to_numeric_cells_error (l : list cell) (e : exn) :
  to_numeric_cells to_numeric l = inl e ->
  exists s, e = NotNumeric s /\ In (Some (VStr s)) l /\ to_numeric s = None.
Proof.
  induction l as [|c l IH]; simpl; [discriminate|].
  destruct c as [[s|q]|].
  - destruct (to_numeric s) eqn:Hs.
    + destruct (to_numeric_cells to_numeric l) as [e'|r]; [|discriminate].
      intros [= <-]. destruct (IH eq_refl) as [s' (He & Hin & Hs')].
      exists s'. auto.
    + intros [= <-]. exists s. auto.
  - destruct (to_numeric_cells to_numeric l) as [e'|r]; [|discriminate].
    intros [= <-]. destruct (IH eq_refl) as [s' (He & Hin & Hs')].
    exists s'. auto.
  - destruct (to_numeric_cells to_numeric l) as [e'|r]; [|discriminate].
    intros [= <-]. destruct (IH eq_refl) as [s' (He & Hin & Hs')].
    exists s'. auto.
Qed.

(** X5: the coercion of line 35 succeeds exactly when the header names the
    cost column once and every cost that is present is a number; a blank
    cost, which is missing by then, does not fail it.  It fails with a key
    error without the column, with a type error under a repeated label, and
    otherwise with a text of the column that is no number. *)
Theorem X5_when_the_coercion_succeeds (d : DataFrame) :
  ((exists d', coerce_cost to_numeric d = inr d')
   <-> List.length (filter (Text.eqb MonthlyCostUSD) (columns d)) = 1
       /\ forall s, In (Some (VStr s)) (column d MonthlyCostUSD) ->
                    to_numeric s <> None)
  /\ (forall e,
         coerce_cost to_numeric d = inl e ->
         (e = KeyError MonthlyCostUSD /\ has_column d MonthlyCostUSD = false)
         \/ (e = TypeError
             /\ 2 <= List.length (filter (Text.eqb MonthlyCostUSD)
                                         (columns d)))
         \/ exists s, e = NotNumeric s
                      /\ In (Some (VStr s)) (column d MonthlyCostUSD)
                      /\ to_numeric s = None).
Proof.
  unfold coerce_cost, has_column.
  destruct (List.length (filter (Text.eqb MonthlyCostUSD) (columns d)))
    as [|[|n]] eqn:Hcount.
  - split.
    + split; [intros [d' H]; discriminate | intros [H _]; discriminate].
    + intros e [= <-]. left. split; [reflexivity|].
      apply length_zero_iff_nil in Hcount.
      destruct (existsb _ _) eqn:E; [|reflexivity].
      apply existsb_exists in E as [c [Hc Heq]].
      assert (In c (filter (Text.eqb MonthlyCostUSD) (columns d)))
        by (apply filter_In; auto).
      rewrite Hcount in H. contradiction.
  - destruct (to_numeric_cells to_numeric (column d MonthlyCostUSD))
      as [e|cost] eqn:Hcost.
    + destruct (to_numeric_cells_error _ _ Hcost) as [s (He & Hin & Hs)].
      split.
      * split; [intros [d' H]; discriminate|].
        intros [_ H]. exfalso. now apply (H s).
      * intros e' [= <-]. right. right. exists s. auto.
    + split; [|discriminate].
      split; [|eauto]. intros _. split; [reflexivity|].
      intros s Hin Hs.
      destruct (to_numeric_cells_fails to_numeric s _ Hin Hs) as [e He].
      congruence.
  - split.
    + split; [intros [d' H]; discriminate | intros [H _]; discriminate].
    + intros e [= <-]. right. left. split; [reflexivity | lia].
Qed.

Lemma repair_not_empty (file : csv_file) (d : DataFrame) :
  repair file = inr d -> empty d = false.
Proof.
  destruct file as [|h|h lines]; try discriminate.
  unfold repair, split_expand. cbv zeta.
  destruct (Nat.eqb _ _) eqn:E; [|discriminate].
  apply Nat.eqb_eq in E. simpl. intros [= <-].
  unfold empty. cbn [columns rows].
  unfold cleaned_header_list in *. rewrite length_map in E.
  destruct (split comma h) as [|f fs] eqn:Hs;
    [now apply split_nonempty in Hs|].
  simpl. destruct lines; [discriminate | reflexivity].
Qed.

Lemma coerce_cost_not_empty (d d' : DataFrame) :
  rectangular d = true ->
  coerce_cost to_numeric d = inr d' ->
  empty d = false -> empty d' = false.
Proof.
  intros Hrect Hc.
  destruct (coerce_cost_frame to_numeric d d' Hrect Hc) as (Hcols & Hrows & _).
  unfold empty, nrows in *. rewrite Hcols.
  destruct (columns d); [auto|].
  destruct (rows d), (rows d'); simpl in *; auto; discriminate.
Qed.

(** X6: the load ends in one of two ways and never with an exception.
    Either it shows the success message and the labels and leaves a table
    that is not empty, has one cell per label in every record and holds
    only numbers and missing cells in the cost column; or it shows one
    error and leaves the empty table.  So the table is empty after the load
    exactly when the load failed; a file with a header and no record is
    such a failure. *)
Theorem X6_two_outcomes_of_the_load (file : csv_file) (w : world) :
  ((exists d,
       load to_numeric file w
       = (inr tt,
          mkWorld d (page w ++ [st_success; st_write (Labels (columns d))]))
       /\ empty d = false
       /\ rectangular d = true
       /\ forallb is_numeric (column d MonthlyCostUSD) = true)
   \/ (exists e,
         load to_numeric file w
         = (inr tt, mkWorld empty_frame (page w ++ [st_error e]))))
  /\ forall header_string,
       load to_numeric (SingleColumn header_string []) w
       = (inr tt,
          mkWorld empty_frame
            (page w
             ++ [st_error
                   (LengthMismatch
                      0 (List.length (split comma header_string)))])).
Proof.
  split.
  - destruct (repair file) as [e|d] eqn:Hr.
    + right. exists e. now apply load_repair_fails.
    + destruct (coerce_cost to_numeric d) as [e|d'] eqn:Hc.
      * right. exists e. now apply load_coerce_fails with d.
      * left. exists d'.
        assert (Hrect : rectangular d = true)
          by now apply repair_rectangular with file.
        split; [now apply load_succeeds with d|]. split; [|split].
        -- apply (coerce_cost_not_empty d d' Hrect Hc).
           now apply repair_not_empty with file.
        -- now apply (coerce_cost_rectangular to_numeric d d').
        -- now apply (coerce_cost_numeric to_numeric d d').
  - intros h. apply load_repair_fails.
    unfold repair, split_expand, cleaned_header_list. cbv zeta. simpl.
    rewrite length_map.
    destruct (split comma h) as [|f fs] eqn:Hs;
      [now apply split_nonempty in Hs | reflexivity].
Qed.

End Outcomes.

(** ** Sums by group *)

Lemma in_insert_sorted (x c : cell) (l : list cell) :
  In x (insert_sorted c l) <-> x = c \/ In x l.
Proof.
  induction l as [|d l IH]; simpl; [intuition|].
  destruct (cell_leb c d); simpl; [intuition|].
  rewrite IH. intuition.
Qed.

Lemma in_sort_keys (x : cell) (l : list cell) :
  In x (sort_keys l) <-> In x l.
Proof.
  induction l as [|c l IH]; [reflexivity|].
  unfold sort_keys in *. simpl. rewrite in_insert_sorted, IH. intuition.
Qed.

Lemma count_keys_of_entries {B} (p : cell -> bool) (f : cell -> B)
      (ks : list cell) :
  List.length (filter (fun kq => p (fst kq)) (List.map (fun k => (k, f k)) ks))
  = List.length (filter p ks).
Proof.
  induction ks as [|k ks IH]; [reflexivity|].
  simpl. destruct (p k); simpl; now rewrite IH.
Qed.

Lemma existsb_in_eqb (x : cell) (l : list cell) :
  In x l -> existsb (cell_eqb x) l = true.
Proof.
  intros H. apply existsb_exists. exists x. split; [exact H|].
  apply cell_eqb_refl.
Qed.

Lemma groupby_sum_conserves (d : DataFrame) (key val : str) :
  (total (groupby_sum d key val)
   == sum (column (dropna_subset d key) val))%Q.
Proof.
  unfold groupby_sum, dropna_subset.
  rewrite column_select, rows_select_column.
  rewrite (map_ext _
    (fun g => (g, sum (List.map (get d val)
                 (filter (fun r => cell_eqb (get d key r) g) (rows d)))))).
  - apply groups_conserve.
  - intros g. now rewrite column_select, rows_select_column.
Qed.

(** X7: for every table and every key column, and every value column of
    whole numbers whose magnitudes add up to less than 2^53, the sums by
    group add up to the sum of the value column over the records whose key
    is not missing; each group's sum and their total are whole numbers
    below 2^53 in magnitude, so that the program's additions are exact.
    This holds for each grouping by one column in the script; in
    particular the untagged cost by department adds up to the cost of the
    untagged records that have a department. *)
Theorem X7_groups_conserve_the_sum (d : DataFrame) (key val : str) :
  exact_costs (column d val) = true ->
  (total (groupby_sum d key val)
   == sum (column (dropna_subset d key) val))%Q
  /\ Forall (fun kq => exact_value (snd kq) = true) (groupby_sum d key val)
  /\ exact_value (total (groupby_sum d key val)) = true
  /\ (exact_costs (column d MonthlyCostUSD) = true ->
      (total (dept_untagged d)
       == sum (column (dropna_subset (untagged d) Department)
                      MonthlyCostUSD))%Q
      /\ Forall (fun kq => exact_value (snd kq) = true) (dept_untagged d)).
Proof.
  intros Hexact. split; [apply groupby_sum_conserves|].
  split; [now apply groupby_sum_exact|]. split.
  - apply (exact_value_eq _ _ (groupby_sum_conserves d key val)).
    now apply exact_costs_sum, exact_costs_select.
  - intros Hcost. split; [apply groupby_sum_conserves|].
    apply groupby_sum_exact. now apply exact_costs_select.
Qed.

Lemma X7_groups_conserve_the_sum_witness :
  exact_costs (column three_costs MonthlyCostUSD) = true
  /\ (total (groupby_sum three_costs Department MonthlyCostUSD) == 90)%Q
  /\ (total (dept_untagged three_costs) == 30)%Q.
Proof.
  split; [reflexivity|].
  destruct (X7_groups_conserve_the_sum three_costs Department MonthlyCostUSD
              eq_refl) as (H1 & _ & _ & H2).
  split; [rewrite H1 | rewrite (proj1 (H2 eq_refl))]; reflexivity.
Defined.

(** X8: the groups are exactly the values of the key column: every entry
    stands for a value that occurs in the column and is not missing, and
    carries the sum of the value column over the records with that key;
    every value that occurs has exactly one entry; a missing key has
    none. *)
Theorem X8_one_group_per_key (d : DataFrame) (key val : str) :
  (forall k q,
      In (k, q) (groupby_sum d key val) ->
      k <> None /\ In k (column d key)
      /\ q = sum (column
                    (select d (List.map (fun c => cell_eqb c k) (column d key)))
                    val))
  /\ (forall c,
         In c (column d key) -> c <> None ->
         List.length (filter (fun kq => cell_eqb c (fst kq))
                             (groupby_sum d key val)) = 1)
  /\ List.length (filter (fun kq => cell_eqb None (fst kq))
                         (groupby_sum d key val)) = 0.
Proof.
  unfold groupby_sum. split; [|split].
  - intros k q H. apply in_map_iff in H as [k' [E Hk]].
    injection E as <- <-.
    apply in_sort_keys, in_unique, filter_In in Hk as [Hin Hnn].
    split; [|split; [exact Hin | reflexivity]].
    intros ->. discriminate.
  - intros c Hin Hc.
    rewrite (count_keys_of_entries (cell_eqb c)), count_group_keys.
    rewrite (existsb_in_eqb c _ Hin). now destruct c.
  - now rewrite (count_keys_of_entries (cell_eqb None)), count_group_keys.
Qed.

Lemma X8_one_group_per_key_witness :
  In (text "No") (column three_costs Tagged)
  /\ text "No" <> None
  /\ List.length (filter (fun kq => cell_eqb (text "No") (fst kq))
                         (groupby_sum three_costs Tagged MonthlyCostUSD)) = 1.
Proof.
  assert (H1 : In (text "No") (column three_costs Tagged)) by (now left).
  assert (H2 : text "No" <> None) by discriminate.
  split; [exact H1|]. split; [exact H2|].
  exact (proj1 (proj2 (X8_one_group_per_key three_costs Tagged
                         MonthlyCostUSD)) (text "No") H1 H2).
Defined.

Lemma cell_eqb_text (k : cell) (s : str) :
  cell_eqb k (Some (VStr s)) = true -> k = Some (VStr s).
Proof.
  destruct k as [[t|q]|]; simpl; try discriminate.
  intros H. apply text_eqb_eq in H. now subst.
Qed.

Lemma in_unique_eqb (x : cell) (l : list cell) :
  In x l -> exists y, In y (unique l) /\ cell_eqb x y = true.
Proof.
  intros H. pose proof (count_unique x l) as Hc.
  rewrite (existsb_in_eqb x l H) in Hc.
  destruct (filter (cell_eqb x) (unique l)) as [|y m] eqn:E; [discriminate|].
  assert (Hy : In y (filter (cell_eqb x) (unique l)))
    by (rewrite E; now left).
  apply filter_In in Hy. now exists y.
Qed.

(** X9: the two displays of the untagged cost agree.  On costs that are
    whole numbers with magnitudes adding up to less than 2^53, when some
    record has [Tagged == "No"], the total cost by tag status has the entry
    [No], and its sum is the untagged cost from which the percentage of
    line 86 is computed: a whole number below 2^53 in magnitude, which
    either way of adding the costs gives exactly. *)
Theorem X9_the_No_entry_is_the_untagged_cost (d : DataFrame) :
  exact_costs (column d MonthlyCostUSD) = true ->
  existsb (fun c => cell_is c No) (column d Tagged) = true ->
  In (Some No, untagged_cost d) (groupby_sum d Tagged MonthlyCostUSD)
  /\ exact_value (untagged_cost d) = true.
Proof.
  intros Hexact H. split;
    [|now apply exact_costs_sum, exact_costs_select].
  apply existsb_exists in H as [c [Hc Hno]].
  assert (Ec : c = Some No).
  { destruct c as [w|]; [|discriminate]. simpl in Hno.
    destruct w as [t|q]; [|discriminate].
    unfold No in *. simpl in Hno. apply text_eqb_eq in Hno. now subst. }
  subst c.
  assert (Hkey : In (Some No)
                    (sort_keys (unique (dropna (column d Tagged))))).
  { apply in_sort_keys.
    assert (Hd : In (Some No) (dropna (column d Tagged)))
      by (apply filter_In; split; [exact Hc | reflexivity]).
    destruct (in_unique_eqb _ _ Hd) as [y [Hy Hey]].
    apply cell_eqb_sym, cell_eqb_text in Hey. now subst y. }
  unfold groupby_sum. apply in_map_iff. exists (Some No).
  split; [reflexivity | exact Hkey].
Qed.

Lemma X9_the_No_entry_is_the_untagged_cost_witness :
  exact_costs (column three_costs MonthlyCostUSD) = true
  /\ existsb (fun c => cell_is c No) (column three_costs Tagged) = true
  /\ In (Some No, untagged_cost three_costs)
        (groupby_sum three_costs Tagged MonthlyCostUSD)
  /\ (untagged_cost three_costs == 40)%Q.
Proof.
  split; [reflexivity|]. split; [reflexivity|].
  split; [|reflexivity].
  exact (proj1 (X9_the_No_entry_is_the_untagged_cost three_costs
                  eq_refl eq_refl)).
Defined.

(** ** Shares *)

Lemma share_bounds (part whole : Q) :
  (0 <= part)%Q -> (part <= whole)%Q -> (0 < whole)%Q ->
  (0 <= part / whole * 100 /\ part / whole * 100 <= 100)%Q.
Proof.
  intros H0 Hle Hpos.
  assert (H1 : (0 <= part / whole)%Q).
  { apply Qle_shift_div_l; [exact Hpos|]. lra. }
  assert (H2 : (part / whole <= 1)%Q).
  { apply Qle_shift_div_r; [exact Hpos|]. lra. }
  split; lra.
Qed.

Lemma share_positive (part whole : Q) :
  (0 < part)%Q -> (0 < whole)%Q -> (0 < part / whole * 100)%Q.
Proof.
  intros Hp Hw.
  assert (H1 : (0 < part / whole)%Q).
  { apply Qlt_shift_div_l; [exact Hw|]. lra. }
  lra.
Qed.

Lemma sum_nonnegative (l : list cell) :
  forallb nonnegative l = true -> (0 <= sum l)%Q.
Proof.
  induction l as [|c l IH]; simpl; [lra|].
  intros H. apply andb_true_iff in H as [Hc Hl].
  apply Qle_bool_iff in Hc. specialize (IH Hl). lra.
Qed.

Lemma sum_of_selection (g : list cell -> cell) (p : list cell -> bool)
      (rs : list (list cell)) :
  forallb nonnegative (List.map g rs) = true ->
  (0 <= sum (List.map g (filter p rs))
   /\ sum (List.map g (filter p rs)) <= sum (List.map g rs))%Q.
Proof.
  induction rs as [|r rs IH]; simpl; [lra|].
  intros H. apply andb_true_iff in H as [Hc Hl].
  apply Qle_bool_iff in Hc. specialize (IH Hl).
  destruct (p r); simpl; lra.
Qed.

(** X10: on a table with distinct labels whose costs are whole numbers
    with magnitudes adding up to less than 2^53, the total cost and the
    untagged cost are whole numbers below 2^53 in magnitude, which the
    program's additions give exactly.  The percentage of cost that is
    untagged is reported only when the table is not empty, has both columns
    and the total cost is positive, so nothing is divided by zero; and when
    no cost is negative, the untagged cost lies between 0 and the total
    cost and the percentage between 0 and 100. *)
Theorem X10_untagged_cost_percentage (w : world) :
  distinctb (columns (df w)) = true ->
  exact_costs (column (df w) MonthlyCostUSD) = true ->
  exact_value (total_cost (df w)) = true
  /\ exact_value (untagged_cost (df w)) = true
  /\ percents (page (snd (task2 w)))
     = percents (page w)
       ++ (if negb (empty (df w))
              && (has_column (df w) Tagged
                  && has_column (df w) MonthlyCostUSD)
              && negb (Qle_bool (total_cost (df w)) 0)
           then [(untagged_cost (df w) / total_cost (df w) * 100)%Q]
           else [])
  /\ (forallb nonnegative (column (df w) MonthlyCostUSD) = true ->
      (0 <= untagged_cost (df w) <= total_cost (df w))%Q
      /\ ((0 < total_cost (df w))%Q ->
          (0 <= untagged_cost (df w) / total_cost (df w) * 100 <= 100)%Q)).
Proof.
  intros _ Hexact.
  split; [now apply exact_costs_sum|].
  split; [now apply exact_costs_sum, exact_costs_select|].
  split.
  - unfold task2, total_cost, untagged_cost, untagged. run_script.
    cbn [fst snd forallb].
    destruct (empty (df w)); simpl;
      [now rewrite app_nil_r|].
    destruct (has_column (df w) Tagged),
             (has_column (df w) MonthlyCostUSD),
             (has_column (df w) Department),
             (has_column (df w) Project),
             (has_column (df w) Environment); simpl;
      try destruct (Qle_bool _ 0); simpl;
      rewrite ?percents_app; simpl; now rewrite ?app_nil_r.
  - intros Hnn.
    assert (H : (0 <= untagged_cost (df w) <= total_cost (df w))%Q).
    { unfold untagged_cost, total_cost, untagged.
      rewrite column_select, rows_select_column.
      apply sum_of_selection. exact Hnn. }
    split; [exact H|]. intros Hpos.
    apply share_bounds; [apply H | apply H | exact Hpos].
Qed.

Lemma X10_untagged_cost_percentage_witness :
  distinctb (columns three_costs) = true
  /\ exact_costs (column three_costs MonthlyCostUSD) = true
  /\ forallb nonnegative (column three_costs MonthlyCostUSD) = true
  /\ (0 < total_cost three_costs)%Q
  /\ percents (page (snd (task2 (mkWorld three_costs []))))
     = [(untagged_cost three_costs / total_cost three_costs * 100)%Q]
  /\ (untagged_cost three_costs / total_cost three_costs * 100 == 40)%Q
  /\ (0 <= untagged_cost three_costs / total_cost three_costs * 100 <= 100)%Q.
Proof.
  assert (Hpos : (0 < total_cost three_costs)%Q) by reflexivity.
  destruct (X10_untagged_cost_percentage (mkWorld three_costs [])
              eq_refl eq_refl) as (_ & _ & Hp & Hb).
  split; [reflexivity|]. split; [reflexivity|]. split; [reflexivity|].
  split; [exact Hpos|]. split; [|split; [reflexivity|]].
  - rewrite Hp. reflexivity.
  - exact (proj2 (Hb eq_refl) Hpos).
Defined.

(** X11: whenever the percentage of untagged resources is reported, it is
    greater than 0 and at most 100: the guard of line 68 leaves at least
    one untagged record, and a table has at least as many records as it has
    untagged ones. *)
Theorem X11_untagged_share_when_reported (d : DataFrame) :
  existsb (fun c => cell_is c No) (column d Tagged) = true ->
  (0 < pct_untagged d /\ pct_untagged d <= 100)%Q.
Proof.
  intros H. rewrite pct_untagged_formula.
  set (k := List.length (filter (fun c => cell_is c No) (column d Tagged))).
  assert (Hk : 0 < k).
  { apply existsb_exists in H as [c [Hc Hno]].
    assert (Hin : In c (filter (fun c => cell_is c No) (column d Tagged)))
      by (apply filter_In; auto).
    unfold k. destruct (filter _ _); [contradiction | simpl; lia]. }
  assert (Hn : k <= nrows d).
  { unfold k, nrows.
    rewrite <- (length_map (get d Tagged) (rows d)).
    apply filter_length_le. }
  assert (Hk' : (0 < inject_Z (Z.of_nat k))%Q)
    by (change 0%Q with (inject_Z 0); rewrite <- Zlt_Qlt; lia).
  assert (Hn' : (inject_Z (Z.of_nat k) <= inject_Z (Z.of_nat (nrows d)))%Q)
    by (rewrite <- Zle_Qle; lia).
  split.
  - apply share_positive; [exact Hk' | lra].
  - apply share_bounds; lra.
Qed.

Lemma X11_untagged_share_when_reported_witness :
  existsb (fun c => cell_is c No) (column ten_records Tagged) = true
  /\ (0 < pct_untagged ten_records /\ pct_untagged ten_records <= 100)%Q.
Proof.
  split; [reflexivity|].
  exact (X11_untagged_share_when_reported ten_records eq_refl).
Defined.

(** ** Scores and incomplete records *)

Lemma count_true_le (l : list bool) : count_true l <= List.length l.
Proof. apply filter_length_le. Qed.

Lemma incomplete_iff_short (l : list cell) :
  existsb isnull l = (count_true (List.map notnull l) <? List.length l).
Proof.
  induction l as [|c l IH]; [reflexivity|].
  pose proof (count_true_le (List.map notnull l)) as Hle.
  rewrite length_map in Hle.
  destruct c as [v|]; unfold count_true in *; simpl.
  - unfold id at 1. simpl. exact IH.
  - symmetry. apply Nat.ltb_lt. lia.
Qed.

Lemma length_take_tag_fields (d : DataFrame) (r : list cell) :
  distinctb (columns d) = true ->
  List.length (flat_map (fun n => cells_under n (columns d) r) (tag_fields d))
  = List.length (tag_fields d).
Proof. intros Hd. now rewrite take_tag_fields, length_map. Qed.

(** X12: in a table with distinct labels, a record is marked incomplete
    exactly when its completeness score is below the number of tag fields
    present, so the table of incomplete resources has as many records as
    there are scores below that number. *)
Theorem X12_incomplete_means_score_below_full (d : DataFrame) :
  distinctb (columns d) = true ->
  incomplete_mask d (tag_fields d)
  = List.map (fun s => s <? List.length (tag_fields d))
             (completeness_score d (tag_fields d))
  /\ nrows (incomplete_df d (tag_fields d))
     = List.length (filter (fun s => s <? List.length (tag_fields d))
                           (completeness_score d (tag_fields d))).
Proof.
  intros Hd.
  assert (E : incomplete_mask d (tag_fields d)
              = List.map (fun s => s <? List.length (tag_fields d))
                         (completeness_score d (tag_fields d))).
  { unfold incomplete_mask, completeness_score, take_columns. cbn [rows].
    rewrite !map_map. apply map_ext. intros r.
    now rewrite incomplete_iff_short, length_take_tag_fields. }
  split; [exact E|].
  unfold nrows. rewrite rows_incomplete_df, length_map.
  unfold completeness_score, take_columns. cbn [rows]. rewrite map_map.
  rewrite <- (length_filter_map
                (fun r => count_true
                            (List.map notnull
                               (flat_map (fun n => cells_under n (columns d) r)
                                         (tag_fields d))))
                (fun s => s <? List.length (tag_fields d))).
  f_equal. apply filter_ext. intros r.
  now rewrite incomplete_iff_short, length_take_tag_fields.
Qed.

Lemma X12_incomplete_means_score_below_full_witness :
  distinctb (columns six_fields) = true
  /\ incomplete_mask six_fields (tag_fields six_fields) = [false; true]
  /\ nrows (incomplete_df six_fields (tag_fields six_fields)) = 1.
Proof.
  split; [reflexivity|].
  destruct (X12_incomplete_means_score_below_full six_fields eq_refl)
    as [Hm Hn].
  split; [rewrite Hm | rewrite Hn]; reflexivity.
Defined.

(** ** Every missing cell is counted once *)

Lemma get_every_label (cols : list str) (r : list cell) :
  distinctb cols = true ->
  List.length r = List.length cols ->
  List.map (fun n => match index_of n cols with
                     | Some i => cell_at i r
                     | None => None
                     end) cols = r.
Proof.
  revert r. induction cols as [|c cols IH]; intros r Hd Hlen.
  - destruct r; [reflexivity | discriminate].
  - destruct r as [|x r]; [discriminate|].
    simpl in Hd. apply andb_true_iff in Hd as [Hc Hd].
    simpl. rewrite text_eqb_refl. f_equal.
    transitivity (List.map (fun n => match index_of n cols with
                                     | Some i => cell_at i r
                                     | None => None
                                     end) cols);
      [|apply IH; [exact Hd | simpl in Hlen; lia]].
    apply map_ext_in. intros n Hn.
    assert (E : Text.eqb c n = false).
    { destruct (Text.eqb c n) eqn:E; [|reflexivity].
      apply text_eqb_eq in E. subst n.
      apply negb_true_iff in Hc.
      assert (existsb (Text.eqb c) cols = true)
        by (apply existsb_exists; exists c; split;
            [exact Hn | apply text_eqb_refl]).
      congruence. }
    rewrite E. now destruct (index_of n cols).
Qed.

Lemma count_columns_cons (g : str -> list cell -> cell) (r : list cell)
      (rs : list (list cell)) (cols : list str) :
  fold_right (fun x acc => snd x + acc) 0
    (List.map (fun n => (n, List.length
                              (filter isnull
                                      (List.map (g n) (r :: rs)))))
              cols)
  = List.length (filter isnull (List.map (fun n => g n r) cols))
    + fold_right (fun x acc => snd x + acc) 0
        (List.map (fun n => (n, List.length
                                  (filter isnull (List.map (g n) rs))))
                  cols).
Proof.
  induction cols as [|n cols IH]; [reflexivity|].
  simpl in *. rewrite IH.
  destruct (isnull (g n r)); simpl; lia.
Qed.

(** X13: in a table with distinct labels and one cell per label in every
    record, the missing values per column are listed in header order, no
    count exceeds the number of records, and the counts add up to the
    number of missing cells of the table: every missing cell is counted
    once. *)
Theorem X13_missing_cells_are_counted_once (d : DataFrame) :
  distinctb (columns d) = true ->
  rectangular d = true ->
  List.map fst (missing_per_column d) = columns d
  /\ Forall (fun x => snd x <= nrows d) (missing_per_column d)
  /\ fold_right (fun x acc => snd x + acc) 0 (missing_per_column d)
     = List.length (filter isnull (List.concat (rows d))).
Proof.
  intros Hd Hrect. unfold missing_per_column. split; [|split].
  - rewrite map_map. simpl. apply map_id.
  - apply Forall_forall. intros x Hx.
    apply in_map_iff in Hx as [n [<- _]]. simpl.
    unfold nrows. rewrite <- (length_map (get d n) (rows d)).
    apply filter_length_le.
  - unfold column, rectangular in *. rewrite forallb_forall in Hrect.
    induction (rows d) as [|r rs IH].
    + assert (H0 : forall l : list str,
                 fold_right (fun x acc => snd x + acc) 0
                   (List.map (fun n => (n, List.length
                                (filter isnull (List.map (get d n) []))))
                             l) = 0)
        by (induction l; simpl; auto).
      apply H0.
    + rewrite (count_columns_cons (get d)).
      rewrite IH by (intros x Hx; apply Hrect; now right).
      simpl List.concat. rewrite filter_app, length_app. f_equal.
      unfold get. rewrite get_every_label; [reflexivity | exact Hd |].
      apply Nat.eqb_eq. apply Hrect. now left.
Qed.

Lemma X13_missing_cells_are_counted_once_witness :
  distinctb (columns six_fields) = true
  /\ rectangular six_fields = true
  /\ fold_right (fun x acc => snd x + acc) 0 (missing_per_column six_fields)
     = 6.
Proof.
  split; [reflexivity|]. split; [reflexivity|].
  rewrite (proj2 (proj2 (X13_missing_cells_are_counted_once six_fields
                           eq_refl eq_refl))).
  reflexivity.
Defined.

(** ** How far the script runs *)

Lemma runs_ret {A} (a : A) : runs_and_keeps (ret a).
Proof. intros [d p]. now exists a, p. Qed.

Lemma runs_st (e : event) : runs_and_keeps (st e).
Proof. intros [d p]. now exists tt, (p ++ [e]). Qed.

Lemma runs_read_df : runs_and_keeps read_df.
Proof. intros [d p]. now exists d, p. Qed.

Lemma runs_bind {A B} (c : script A) (k : A -> script B) :
  runs_and_keeps c -> (forall a, runs_and_keeps (k a)) ->
  runs_and_keeps (bind c k).
Proof.
  intros Hc Hk w. destruct (Hc w) as (a & p & E).
  destruct (Hk a (mkWorld (df w) p)) as (b & q & E').
  exists b, q. unfold bind. rewrite E. exact E'.
Qed.

Lemma runs_when (b : bool) (c : script unit) :
  runs_and_keeps c -> runs_and_keeps (when b c).
Proof. destruct b; simpl; auto using runs_ret. Qed.

Lemma runs_if {A} (b : bool) (c1 c2 : script A) :
  runs_and_keeps c1 -> runs_and_keeps c2 ->
  runs_and_keeps (if b then c1 else c2).
Proof. now destruct b. Qed.

Create HintDb runs.
#[local] Hint Resolve runs_ret runs_st runs_read_df runs_bind runs_when
  runs_if : runs.

Lemma runs_task1 (w : world) :
  distinctb (columns (df w)) = true ->
  exists a p, task1 w = (inr a, mkWorld (df w) p).
Proof.
  intros Hd. unfold task1. unfold bind at 1. unfold read_df.
  rewrite Hd.
  refine ((_ : runs_and_keeps _) w). auto 12 with runs.
Qed.

Lemma runs_task2 : runs_and_keeps task2.
Proof. unfold task2. auto 12 with runs. Qed.

Lemma runs_task4 (ticked : string -> cell -> bool) :
  runs_and_keeps (task4 ticked).
Proof. unfold task4. auto 12 with runs. Qed.

Lemma offers_app (p q : list event) : offers (p ++ q) = offers p ++ offers q.
Proof. apply filter_app. Qed.

Lemma offers_nothing_ret {A} (a : A) : offers_nothing (ret a).
Proof. now intros w. Qed.

Lemma offers_nothing_raise {A} (e : exn) : offers_nothing (@raise A e).
Proof. now intros w. Qed.

Lemma offers_nothing_read_df : offers_nothing read_df.
Proof. now intros w. Qed.

Lemma offers_nothing_write (x : shown) : offers_nothing (st (st_write x)).
Proof. intros w. simpl. rewrite offers_app. apply app_nil_r. Qed.

Lemma offers_nothing_dataframe (f : DataFrame) :
  offers_nothing (st (st_dataframe f)).
Proof. intros w. simpl. rewrite offers_app. apply app_nil_r. Qed.

Lemma offers_nothing_warning (what : string) :
  offers_nothing (st (st_warning what)).
Proof. intros w. simpl. rewrite offers_app. apply app_nil_r. Qed.

Lemma offers_nothing_bind {A B} (c : script A) (k : A -> script B) :
  offers_nothing c -> (forall a, offers_nothing (k a)) ->
  offers_nothing (bind c k).
Proof.
  intros Hc Hk w. unfold bind. specialize (Hc w).
  destruct (c w) as [[e|a] w']; simpl in *; [exact Hc|].
  now rewrite Hk.
Qed.

Lemma offers_nothing_when (b : bool) (c : script unit) :
  offers_nothing c -> offers_nothing (when b c).
Proof. destruct b; simpl; auto using offers_nothing_ret. Qed.

Lemma offers_nothing_if {A} (b : bool) (c1 c2 : script A) :
  offers_nothing c1 -> offers_nothing c2 ->
  offers_nothing (if b then c1 else c2).
Proof. now destruct b. Qed.

Create HintDb offers.
#[local] Hint Resolve offers_nothing_ret offers_nothing_raise
  offers_nothing_read_df offers_nothing_write offers_nothing_dataframe
  offers_nothing_warning offers_nothing_bind offers_nothing_when
  offers_nothing_if : offers.

Lemma offers_nothing_task1 : offers_nothing task1.
Proof. unfold task1. auto 14 with offers. Qed.

Lemma offers_nothing_task2 : offers_nothing task2.
Proof. unfold task2. auto 14 with offers. Qed.

Lemma has_column_set_column (d : DataFrame) (n name : str)
      (values : list cell) :
  has_column (set_column d n values) name
  = has_column d name || (Text.eqb name n && negb (has_column d n)).
Proof.
  unfold set_column, has_column.
  destruct (index_of n (columns d)) as [i|] eqn:Ei; cbn [columns].
  - assert (E : existsb (Text.eqb n) (columns d) = true).
    { apply index_of_nth in Ei. apply nth_error_In in Ei.
      apply existsb_exists. exists n. split; [exact Ei | apply text_eqb_refl]. }
    rewrite E. simpl. now rewrite andb_false_r, orb_false_r.
  - assert (E : existsb (Text.eqb n) (columns d) = false).
    { destruct (existsb (Text.eqb n) (columns d)) eqn:E; [|reflexivity].
      exfalso. apply existsb_exists in E as [c [Hc Hn]].
      apply text_eqb_eq in Hn. subst c.
      clear - Ei Hc. induction (columns d) as [|c cols IH]; [contradiction|].
      simpl in Ei. destruct (Text.eqb c n) eqn:E; [discriminate|].
      destruct Hc as [->|Hc]; [now rewrite text_eqb_refl in E|].
      destruct (index_of n cols); [discriminate | now apply IH]. }
    rewrite E, existsb_app. simpl. now rewrite orb_false_r, andb_true_r.
Qed.

Lemma empty_set_column (d : DataFrame) (n : str) (values : list cell) :
  List.length values = nrows d ->
  empty d = false -> empty (set_column d n values) = false.
Proof.
  intros Hlen He.
  pose proof (nrows_set_column d n values Hlen) as Hn.
  unfold empty, nrows in *.
  destruct (columns d) as [|c cols] eqn:Ec; [discriminate|].
  destruct (rows d) as [|r rs] eqn:Er; [discriminate|].
  unfold set_column in *. rewrite Ec in *.
  destruct (index_of n (c :: cols)); cbn [columns rows] in *.
  - destruct (List.map _ _); [discriminate | reflexivity].
  - destruct (List.map _ _); [discriminate | reflexivity].
Qed.

Section Runs.

Variable number_text : Q -> str.
Variable ticked : string -> cell -> bool.
Variable data_editor : DataFrame -> DataFrame.

Lemma task3_outcome (w : world) :
  (negb (empty (df w)) && nonempty (tag_fields (df w)) = false ->
   task3 number_text w
   = (inr empty_frame,
      mkWorld (df w)
        (page w
         ++ [st_warning
               "No tag columns found to calculate CompletenessScore."])))
  /\ (negb (empty (df w)) && nonempty (tag_fields (df w)) = true ->
      has_column (df w) ResourceID = false ->
      task3 number_text w
      = (inl (KeyError ResourceID), mkWorld (scored (df w)) (page w)))
  /\ (negb (empty (df w)) && nonempty (tag_fields (df w)) = true ->
      has_column (df w) ResourceID = true ->
      exists p,
        task3 number_text w
        = (inr (incomplete_df (scored (df w)) (tag_fields (df w))),
           mkWorld (scored (df w)) p)).
Proof.
  assert (Hid : has_column (scored (df w)) ResourceID
                = has_column (df w) ResourceID).
  { unfold scored. rewrite has_column_set_column.
    change (Text.eqb ResourceID CompletenessScore) with false.
    now rewrite orb_false_r. }
  split; [|split].
  - intros Hg. unfold task3. run_script. cbv beta. now rewrite Hg.
  - intros Hg Hr. unfold task3. run_script. cbv beta. rewrite Hg.
    cbn [df page fst snd]. fold (scored (df w)). now rewrite Hid, Hr.
  - intros Hg Hr. unfold task3. run_script. cbv beta. rewrite Hg.
    cbn [df page fst snd]. fold (scored (df w)). rewrite Hid, Hr.
    destruct (negb (empty (incomplete_df (scored (df w))
                                         (tag_fields (df w)))));
      eexists; reflexivity.
Qed.

(** X14: task set 3 looks up [ResourceID] without checking for it.  On a
    table with distinct labels it raises a key error exactly when the table
    is not empty, has a tag field and has no [ResourceID] column, and it
    raises nothing else.  The scores are stored in the table by then.  The
    script stops there with that error: the table it leaves is the scored
    one, and no download and no figure has been put on the page, neither
    the incomplete resources nor the updated data. *)
Theorem X14_no_ResourceID_stops_the_script (w : world) :
  distinctb (columns (df w)) = true ->
  (fst (task3 number_text w) = inl (KeyError ResourceID)
   <-> negb (empty (df w)) && nonempty (tag_fields (df w))
       && negb (has_column (df w) ResourceID) = true)
  /\ (forall e, fst (task3 number_text w) = inl e -> e = KeyError ResourceID)
  /\ (negb (empty (df w)) && nonempty (tag_fields (df w))
      && negb (has_column (df w) ResourceID) = true ->
      df (snd (task3 number_text w)) = scored (df w)
      /\ fst (downstream number_text ticked data_editor w)
         = inl (KeyError ResourceID)
      /\ df (snd (downstream number_text ticked data_editor w))
         = scored (df w)
      /\ offers (page (snd (downstream number_text ticked data_editor w)))
         = offers (page w)).
Proof.
  intros Hd.
  destruct (task3_outcome w) as (Hskip & Hraise & Hrun).
  destruct (negb (empty (df w)) && nonempty (tag_fields (df w))) eqn:Hg.
  - destruct (has_column (df w) ResourceID) eqn:Hr.
    + destruct (Hrun eq_refl eq_refl) as [p Hp]. rewrite Hp. simpl.
      split; [split; discriminate|]. split; discriminate.
    + rewrite (Hraise eq_refl eq_refl). simpl.
      split; [split; reflexivity|].
      split; [now intros e [= <-]|]. intros _. split; [reflexivity|].
      destruct (runs_task1 w Hd) as (a1 & p1 & E1).
      destruct (runs_task2 (mkWorld (df w) p1)) as (a2 & p2 & E2).
      cbn [df] in E2.
      destruct (task3_outcome (mkWorld (df w) p2)) as (_ & Hraise' & _).
      cbn [df page] in Hraise'.
      assert (E : downstream number_text ticked data_editor w
                  = (inl (KeyError ResourceID),
                     mkWorld (scored (df w)) p2)).
      { unfold downstream.
        unfold bind at 1. rewrite E1.
        unfold bind at 1. rewrite E2.
        unfold bind at 1. rewrite (Hraise' Hg Hr). reflexivity. }
      rewrite E. cbn [fst snd df page].
      split; [reflexivity|]. split; [reflexivity|].
      pose proof (offers_nothing_task1 w) as O1. rewrite E1 in O1.
      pose proof (offers_nothing_task2 (mkWorld (df w) p1)) as O2.
      rewrite E2 in O2. cbn [snd page] in O1, O2. congruence.
  - rewrite (Hskip eq_refl). simpl.
    split; [split; discriminate|]. split; discriminate.
Qed.

(** X15: on a table with distinct labels that is not empty and has
    [ResourceID] whenever it has a tag field, all five task sets run
    without an exception, and the last thing put on the page is the
    download of the updated data: the export of
    what the editable grid handed back for the table as task set 3 left it.
    With a tag field in the header that table carries the column
    [CompletenessScore], so the scores are part of what is edited and
    exported. *)
Theorem X15_what_the_updated_data_holds (w : world) :
  distinctb (columns (df w)) = true ->
  empty (df w) = false ->
  (nonempty (tag_fields (df w)) = true ->
   has_column (df w) ResourceID = true) ->
  let d := if nonempty (tag_fields (df w)) then scored (df w) else df w in
  (exists p,
      downstream number_text ticked data_editor w
      = (inr tt,
         mkWorld d
           (p ++ [st_download_button "updated_data.csv"
                    (to_csv number_text (data_editor d))])))
  /\ (nonempty (tag_fields (df w)) = true ->
      has_column d CompletenessScore = true).
Proof.
  intros Hdist He Hid d. split.
  - unfold downstream.
    destruct (runs_task1 w Hdist) as (a1 & p1 & E1).
    destruct (runs_task2 (mkWorld (df w) p1)) as (a2 & p2 & E2).
    cbn [df] in E2.
    unfold bind at 1. rewrite E1.
    unfold bind at 1. rewrite E2.
    destruct (task3_outcome (mkWorld (df w) p2)) as (Hskip & _ & Hrun).
    cbn [df page] in Hskip, Hrun. rewrite He in Hskip, Hrun.
    assert (E3 : exists u p3,
               task3 number_text (mkWorld (df w) p2)
               = (inr u, mkWorld d p3) /\ empty d = false).
    { subst d. destruct (nonempty (tag_fields (df w))) eqn:Ht.
      - destruct (Hrun eq_refl (Hid eq_refl)) as [p3 E3].
        exists (incomplete_df (scored (df w)) (tag_fields (df w))), p3.
        split; [exact E3|]. unfold scored. apply empty_set_column.
        + now rewrite length_map, length_completeness_score.
        + exact He.
      - eexists. eexists. split; [apply (Hskip eq_refl) | exact He]. }
    destruct E3 as (u & p3 & E3 & Hd).
    unfold bind at 1. rewrite E3.
    destruct (runs_task4 ticked (mkWorld d p3)) as (a4 & p4 & E4).
    cbn [df] in E4. unfold bind at 1. rewrite E4.
    unfold task5. run_script. cbn [df page fst snd]. rewrite Hd. simpl.
    exists p4. destruct a4. reflexivity.
  - intros Ht. subst d. rewrite Ht. unfold scored.
    rewrite has_column_set_column, text_eqb_refl.
    now destruct (has_column (df w) CompletenessScore).
Qed.

End Runs.

Lemma X14_no_ResourceID_stops_the_script_witness :
  distinctb (columns no_resource_id) = true
  /\ negb (empty no_resource_id) && nonempty (tag_fields no_resource_id)
     && negb (has_column no_resource_id ResourceID) = true
  /\ df (snd (task3 fraction_text (mkWorld no_resource_id [])))
     = scored no_resource_id
  /\ fst (downstream fraction_text all_ticked no_edit
            (mkWorld no_resource_id []))
     = inl (KeyError ResourceID)
  /\ df (snd (downstream fraction_text all_ticked no_edit
                (mkWorld no_resource_id [])))
     = scored no_resource_id
  /\ offers (page (snd (downstream fraction_text all_ticked no_edit
                          (mkWorld no_resource_id []))))
     = [].
Proof.
  split; [reflexivity|]. split; [reflexivity|].
  destruct (X14_no_ResourceID_stops_the_script fraction_text all_ticked
              no_edit (mkWorld no_resource_id []) eq_refl)
    as (_ & _ & H).
  exact (H eq_refl).
Defined.

Lemma X15_what_the_updated_data_holds_witness :
  distinctb (columns one_incomplete) = true
  /\ empty one_incomplete = false
  /\ has_column one_incomplete ResourceID = true
  /\ exists p,
       downstream fraction_text all_ticked no_edit (mkWorld one_incomplete [])
       = (inr tt,
          mkWorld (scored one_incomplete)
            (p ++ [st_download_button "updated_data.csv"
                     (to_csv fraction_text
                             (no_edit (scored one_incomplete)))])).
Proof.
  split; [reflexivity|]. split; [reflexivity|]. split; [reflexivity|].
  exact (proj1 (X15_what_the_updated_data_holds
                  fraction_text all_ticked no_edit
                  (mkWorld one_incomplete []) eq_refl eq_refl
                  (fun _ => eq_refl))).
Defined.

(** ** Sums by two keys *)

Lemma key2_eqb_refl (a : key2) : key2_eqb a a = true.
Proof. unfold key2_eqb. now rewrite !cell_eqb_refl. Qed.

Lemma key2_eqb_sym (a b : key2) : key2_eqb a b = true -> key2_eqb b a = true.
Proof.
  unfold key2_eqb. intros H. apply andb_true_iff in H as [H1 H2].
  now rewrite (cell_eqb_sym _ _ H1), (cell_eqb_sym _ _ H2).
Qed.

Lemma key2_eqb_trans (a b c : key2) :
  key2_eqb a b = true -> key2_eqb b c = true -> key2_eqb a c = true.
Proof.
  unfold key2_eqb. intros H H'.
  apply andb_true_iff in H as [H1 H2]. apply andb_true_iff in H' as [H3 H4].
  now rewrite (cell_eqb_trans _ _ _ H1 H3), (cell_eqb_trans _ _ _ H2 H4).
Qed.

Lemma count_insert_sorted2 (f : key2 -> bool) (c : key2) (l : list key2) :
  List.length (filter f (insert_sorted2 c l))
  = List.length (filter f (c :: l)).
Proof.
  induction l as [|d l IH]; [reflexivity|].
  simpl insert_sorted2. destruct (key2_leb c d); [reflexivity|].
  simpl in *. destruct (f d), (f c); simpl in *; lia.
Qed.

Lemma count_sort_keys2 (f : key2 -> bool) (l : list key2) :
  List.length (filter f (sort_keys2 l)) = List.length (filter f l).
Proof.
  induction l as [|c l IH]; [reflexivity|].
  unfold sort_keys2 in *. simpl fold_right.
  rewrite count_insert_sorted2. simpl. destruct (f c); simpl; lia.
Qed.

Lemma filter_other_key2_removed (x c : key2) (m : list key2) :
  key2_eqb x c = false ->
  filter (key2_eqb x) (filter (fun d => negb (key2_eqb d c)) m)
  = filter (key2_eqb x) m.
Proof.
  intros E. induction m as [|d m IHm]; [reflexivity|].
  simpl. destruct (key2_eqb d c) eqn:Edc; simpl.
  - destruct (key2_eqb x d) eqn:Exd; [|exact IHm].
    exfalso. rewrite (key2_eqb_trans _ _ _ Exd Edc) in E. discriminate.
  - destruct (key2_eqb x d); [f_equal|]; exact IHm.
Qed.

Lemma count_unique2 (x : key2) (l : list key2) :
  List.length (filter (key2_eqb x) (unique2 l))
  = if existsb (key2_eqb x) l then 1 else 0.
Proof.
  induction l as [|c l IH]; [reflexivity|].
  simpl. destruct (key2_eqb x c) eqn:E; simpl.
  - f_equal. apply length_zero_iff_nil. apply filter_none.
    intros y Hy. apply filter_In in Hy as [_ Hy].
    destruct (key2_eqb x y) eqn:Exy; [|reflexivity].
    apply key2_eqb_sym in Exy.
    rewrite (key2_eqb_trans _ _ _ Exy E) in Hy. discriminate.
  - now rewrite filter_other_key2_removed.
Qed.

Lemma key2_present_eqb (x c : key2) :
  key2_eqb x c = true -> key2_present x = key2_present c.
Proof.
  destruct x as [[x1|] [x2|]], c as [[c1|] [c2|]];
    unfold key2_eqb, key2_present; simpl;
    rewrite ?andb_false_r; intros H; try reflexivity; discriminate.
Qed.

Lemma existsb_present2 (x : key2) (l : list key2) :
  existsb (key2_eqb x) (filter key2_present l)
  = key2_present x && existsb (key2_eqb x) l.
Proof.
  induction l as [|c l IH]; simpl; [now rewrite andb_false_r|].
  destruct (key2_eqb x c) eqn:E.
  - rewrite <- (key2_present_eqb x c E).
    destruct (key2_present x) eqn:Hx; simpl; [now rewrite E|exact IH].
  - destruct (key2_present c); simpl; [rewrite E|]; exact IH.
Qed.

Lemma total2_no_match (x : key2) (q : Q) (ks : list key2) :
  List.length (filter (key2_eqb x) ks) = 0 ->
  (total2 (List.map (fun k => (k, if key2_eqb x k then q else 0%Q)) ks)
   == 0)%Q.
Proof.
  induction ks as [|k ks IH]; simpl; [reflexivity|].
  destruct (key2_eqb x k); simpl; [discriminate|].
  intros H. rewrite (IH H). ring.
Qed.

Lemma total2_one_match (x : key2) (q : Q) (ks : list key2) :
  List.length (filter (key2_eqb x) ks) = 1 ->
  (total2 (List.map (fun k => (k, if key2_eqb x k then q else 0%Q)) ks)
   == q)%Q.
Proof.
  induction ks as [|k ks IH]; simpl; [discriminate|].
  destruct (key2_eqb x k); simpl; intros H.
  - injection H as H. rewrite (total2_no_match x q ks H). ring.
  - rewrite (IH H). ring.
Qed.

Section Groups2.

Variable kf : list cell -> key2.
Variable vf : list cell -> cell.

Lemma total2_groups_cons (r : list cell) (rs : list (list cell))
      (ks : list key2) :
  (total2 (List.map (fun k => (k, sum (List.map vf
             (filter (fun r' => key2_eqb (kf r') k) (r :: rs))))) ks)
   == total2 (List.map (fun k => (k, if key2_eqb (kf r) k
                                     then number (vf r) else 0%Q)) ks)
      + total2 (List.map (fun k => (k, sum (List.map vf
             (filter (fun r' => key2_eqb (kf r') k) rs)))) ks))%Q.
Proof.
  induction ks as [|k ks IH]; simpl total2; [ring|].
  simpl map in *. unfold total2 in *. simpl fold_right. rewrite IH.
  simpl filter. destruct (key2_eqb (kf r) k); simpl; ring.
Qed.

Lemma total2_groups_nil (ks : list key2) :
  (total2 (List.map (fun k => (k, sum (List.map vf
             (filter (fun r' => key2_eqb (kf r') k) [])))) ks) == 0)%Q.
Proof.
  induction ks as [|k ks IH]; simpl; [reflexivity|].
  simpl in IH. rewrite IH. ring.
Qed.

Lemma groups2_conserve (rs : list (list cell)) :
  (total2 (List.map (fun k => (k, sum (List.map vf
             (filter (fun r' => key2_eqb (kf r') k) rs))))
            (sort_keys2 (unique2 (filter key2_present (List.map kf rs)))))
   == sum (List.map vf (filter (fun r => key2_present (kf r)) rs)))%Q.
Proof.
  set (ks := sort_keys2 (unique2 (filter key2_present (List.map kf rs)))).
  assert (Hcount : forall r, In r rs ->
            List.length (filter (key2_eqb (kf r)) ks)
            = if key2_present (kf r) then 1 else 0).
  { intros r Hr. unfold ks.
    rewrite count_sort_keys2, count_unique2, existsb_present2.
    assert (E : existsb (key2_eqb (kf r)) (List.map kf rs) = true).
    { apply existsb_exists. exists (kf r). split.
      - now apply in_map.
      - apply key2_eqb_refl. }
    now rewrite E, andb_true_r. }
  clearbody ks. induction rs as [|r rs IH].
  - apply total2_groups_nil.
  - rewrite total2_groups_cons, IH by (intros; apply Hcount; now right).
    specialize (Hcount r (or_introl eq_refl)).
    simpl filter. destruct (key2_present (kf r)); simpl.
    + rewrite (total2_one_match _ _ _ Hcount). reflexivity.
    + rewrite (total2_no_match _ _ _ Hcount). ring.
Qed.

End Groups2.

Lemma combine_columns (d : DataFrame) (first second : str) :
  combine (column d first) (column d second)
  = List.map (fun r => (get d first r, get d second r)) (rows d).
Proof.
  unfold column. induction (rows d) as [|r rs IH]; simpl; congruence.
Qed.

Lemma rows_select_keys (d : DataFrame) (first second : str)
      (p : key2 -> bool) :
  rows (select d (List.map p (combine (column d first) (column d second))))
  = filter (fun r => p (get d first r, get d second r)) (rows d).
Proof.
  rewrite combine_columns. unfold select; simpl.
  rewrite map_map. apply filter_by_mask.
Qed.

Lemma groupby2_sum_conserves (d : DataFrame) (first second val : str) :
  (total2 (groupby2_sum d first second val)
   == sum (column
             (select d (List.map key2_present
                                 (combine (column d first)
                                          (column d second))))
             val))%Q.
Proof.
  unfold groupby2_sum. cbv zeta.
  rewrite column_select, rows_select_keys.
  rewrite (map_ext _
    (fun k => (k, sum (List.map (get d val)
                 (filter (fun r => key2_eqb (get d first r, get d second r) k)
                         (rows d)))))).
  - rewrite combine_columns.
    apply (groups2_conserve (fun r => (get d first r, get d second r))
                            (get d val)).
  - intros k. now rewrite column_select, rows_select_keys.
Qed.

Lemma groupby2_sum_exact (d : DataFrame) (first second val : str) :
  exact_costs (column d val) = true ->
  Forall (fun kq => exact_value (snd kq) = true)
         (groupby2_sum d first second val).
Proof.
  intros H. unfold groupby2_sum. cbv zeta. apply Forall_forall.
  intros kq Hin. apply in_map_iff in Hin as [k [<- _]]. cbn [snd].
  now apply exact_costs_sum, exact_costs_select.
Qed.

(** X16: for a value column of whole numbers whose magnitudes add up to
    less than 2^53, the sums by two keys add up to the sum of the value
    column over the records in which neither key is missing; a record that
    lacks one of the two keys is in no group.  Each group's sum and their
    total are whole numbers below 2^53 in magnitude, so that the program's
    additions are exact.  So the cost by environment and tag status adds
    up to the cost of the records that have both. *)
Theorem X16_two_keys_conserve_the_sum (d : DataFrame)
        (first second val : str) :
  exact_costs (column d val) = true ->
  (total2 (groupby2_sum d first second val)
   == sum (column
             (select d (List.map key2_present
                                 (combine (column d first)
                                          (column d second))))
             val))%Q
  /\ Forall (fun kq => exact_value (snd kq) = true)
            (groupby2_sum d first second val)
  /\ exact_value (total2 (groupby2_sum d first second val)) = true
  /\ (exact_costs (column d MonthlyCostUSD) = true ->
      (total2 (cost_by_environment_and_tag d)
       == sum (column
                 (select d (List.map key2_present
                                     (combine (column d Environment)
                                              (column d Tagged))))
                 MonthlyCostUSD))%Q
      /\ Forall (fun kq => exact_value (snd kq) = true)
                (cost_by_environment_and_tag d)).
Proof.
  intros Hexact. split; [apply groupby2_sum_conserves|].
  split; [now apply groupby2_sum_exact|]. split.
  - apply (exact_value_eq _ _ (groupby2_sum_conserves d first second val)).
    now apply exact_costs_sum, exact_costs_select.
  - intros Hcost. split; [apply groupby2_sum_conserves|].
    now apply groupby2_sum_exact.
Qed.

Lemma X16_two_keys_conserve_the_sum_witness :
  exact_costs (column four_costs MonthlyCostUSD) = true
  /\ (total2 (groupby2_sum four_costs Environment Tagged MonthlyCostUSD)
      == 90)%Q
  /\ (total2 (cost_by_environment_and_tag four_costs) == 90)%Q.
Proof.
  split; [reflexivity|].
  destruct (X16_two_keys_conserve_the_sum four_costs Environment Tagged
              MonthlyCostUSD eq_refl) as (H1 & _ & _ & H2).
  split; [rewrite H1 | rewrite (proj1 (H2 eq_refl))]; reflexivity.
Defined.

Example cost_by_environment_and_tag_example :
  cost_by_environment_and_tag four_costs
  = [((text "Dev", text "No"), inject_Z 50);
     ((text "Prod", text "Yes"), inject_Z 40)]
  /\ (sum (column four_costs MonthlyCostUSD) == 100)%Q.
Proof. split; reflexivity. Qed.

(** ** Order of the filters *)

Lemma frame_eq (a b : DataFrame) :
  columns a = columns b -> rows a = rows b -> a = b.
Proof. destruct a, b; simpl; intros -> ->; reflexivity. Qed.

(** X17: the three selectors can be applied in any order: two filters
    commute.  The filtered table is a part of the table in its original
    order, and with nothing ticked anywhere it is the table itself. *)
Theorem X17_filters_commute (ticked : string -> cell -> bool)
        (d t : DataFrame) (label1 label2 : string) (col1 col2 : str) :
  columns t = columns d ->
  filter_by ticked label1 col1 d (filter_by ticked label2 col2 d t)
  = filter_by ticked label2 col2 d (filter_by ticked label1 col1 d t)
  /\ rows (filtered_table ticked d)
     = filter
         (fun r =>
            forallb (fun lc =>
                       negb (nonempty (col_filter ticked (fst lc) (snd lc) d))
                       || isin (col_filter ticked (fst lc) (snd lc) d)
                               (get d (snd lc) r))
                    selectors)
         (rows d)
  /\ filtered_table (fun _ _ => false) d = d.
Proof.
  intros Hcols. split; [|split].
  - destruct (filter_by_rows ticked label1 col1 d t Hcols) as [C1 R1].
    destruct (filter_by_rows ticked label2 col2 d t Hcols) as [C2 R2].
    destruct (filter_by_rows ticked label1 col1 d _ C2) as [C12 R12].
    destruct (filter_by_rows ticked label2 col2 d _ C1) as [C21 R21].
    apply frame_eq; [congruence|].
    rewrite R12, R2, R21, R1, !filter_filter.
    apply filter_ext. intros r. apply andb_comm.
  - apply filtered_table_rows.
  - apply frame_eq.
    + apply filtered_table_rows.
    + destruct (filtered_table_rows (fun _ _ => false) d) as [_ ->].
      rewrite <- (filter_all (rows d)) at 2.
      apply filter_ext. intros r. unfold col_filter, multiselect.
      assert (E : forall l : list cell, filter (fun _ => false) l = [])
        by (induction l; simpl; auto).
      simpl. now rewrite !E.
Qed.

Lemma X17_filters_commute_witness :
  columns three_services = columns three_services
  /\ filter_by all_ticked "Filter by Service" Service three_services
               (filter_by all_ticked "Filter by Region" Region three_services
                          three_services)
     = filter_by all_ticked "Filter by Region" Region three_services
                 (filter_by all_ticked "Filter by Service" Service
                            three_services three_services).
Proof.
  split; [reflexivity|].
  exact (proj1 (X17_filters_commute all_ticked three_services three_services
                  "Filter by Service" "Filter by Region" Service Region
                  eq_refl)).
Defined.
